(** * connect/service.go: the acknowledgment dispatcher of the MDM service

    A shallow embedding of [connect.service] and of the values it handles.
    The Go code talks to four stores through interfaces
    ([command.Service], [device.Datastore], [application.Datastore],
    [certificate.Datastore]); here every interface is a type class over the
    type of the store's state, a call that may mutate the store returns the
    new state, and a Go result [(v, err)] is the pair [(v, option error)]
    with [None] for [nil]. *)

From Stdlib Require Import String List ZArith Bool Lia DecimalString.
Import ListNotations.

Open Scope string_scope.
Open Scope Z_scope.

(** A Go [error] is identified with the text of its [Error()] method. *)
Definition error := string.

Module errors.
(** [errors.New(msg)] *)
Definition New (msg : string) : error := msg.
(** [errors.Wrap(err, msg)]: the message becomes ["msg: " + err.Error()]. *)
Definition Wrap (err : error) (msg : string) : error := msg ++ ": " ++ err.
End errors.

(** ** database/sql: nullable columns *)
Module sql.

Record NullString := mkNullString
  { NullString_String : string; NullString_Valid : bool }.

Record NullInt64 := mkNullInt64
  { NullInt64_Int64 : Z; NullInt64_Valid : bool }.

(** [func (n *NullInt64) Scan(value interface{}) error].  The argument is
    a Go interface value: [None] is the [nil] interface, [Some v] a boxed
    integer, whose value is copied.  Only the [nil] interface yields
    [Valid = false]. *)
Definition NullInt64_Scan (value : option Z) : NullInt64 :=
  match value with
  | None => mkNullInt64 0 false
  | Some v => mkNullInt64 v true
  end.

(** [func (ns *NullString) Scan(value interface{}) error] *)
Definition NullString_Scan (value : option string) : NullString :=
  match value with
  | None => mkNullString "" false
  | Some s => mkNullString s true
  end.

End sql.

(** ** github.com/micromdm/mdm: what the transport layer decodes *)
Module mdm.

Record QueryResponses := mkQueryResponses
  { QR_SerialNumber : string;
    QR_ProductName : string;
    QR_BuildVersion : string;
    QR_DeviceName : string;
    QR_IMEI : string;
    QR_MEID : string;
    QR_Model : string;
    QR_OSVersion : string }.

(** One entry of [InstalledApplicationList].  The two sizes are [uint32]
    and the strings are plain Go strings: a key the device left out is
    decoded as the zero value ([0], [""]). *)
Record InstalledApplicationListItem := mkInstalledApplicationListItem
  { App_Name : string;
    App_Identifier : string;
    App_ShortVersion : string;
    App_Version : string;
    App_BundleSize : Z;
    App_DynamicSize : Z }.

Record CertificateListItem := mkCertificateListItem
  { Cert_CommonName : string;
    Cert_IsIdentity : bool;
    Cert_Data : list Byte.byte }.

Record Response := mkResponse
  { UDID : string;
    CommandUUID : string;
    QueryResponses_ : QueryResponses;
    InstalledApplicationList : list InstalledApplicationListItem;
    CertificateList : list CertificateListItem }.

Record CommandRequest := mkCommandRequest
  { Request_UDID : string; Request_RequestType : string }.

Record Command := mkCommand { RequestType : string }.

Record Payload := mkPayload
  { Payload_CommandUUID : string; Payload_Command : Command }.

(** The zero value of [Payload]. *)
Definition zero_Payload : Payload := mkPayload "" (mkCommand "").

End mdm.

(** ** package device *)
Module device.

(** [device.JsonNullString] wraps [sql.NullString]. *)
Definition JsonNullString := sql.NullString.

Record Device := mkDevice
  { UUID : string;
    UDID : string;
    SerialNumber_ : JsonNullString;
    ProductName : string;
    BuildVersion : string;
    DeviceName : string;
    IMEI : string;
    MEID : string;
    Model : string;
    OSVersion : string;
    LastCheckin : Z;
    LastQueryResponse : list Byte.byte;
    AwaitingConfiguration : bool }.

Definition zero_Device : Device :=
  mkDevice "" "" (sql.mkNullString "" false) "" "" "" "" "" "" "" 0 [] false.

(** The filters handed to [Devices]: [device.SerialNumber{...}] and
    [device.UDID{...}]. *)
Inductive Param :=
| SerialNumber (v : string)
| ByUDID (v : string).

(** [device.Datastore], as far as [connect] calls it.  The two lookups
    read the store, [Save] writes it. *)
Class Datastore (D : Type) := {
  GetDeviceByUDID : D -> string -> list string -> Device * option error;
  Devices : D -> list Param -> list Device * option error;
  Save : D -> string -> Device -> D * option error
}.

End device.

(** ** package application *)
Module application.

Record DeviceApplication := mkDeviceApplication
  { DeviceUUID : string;
    Name : string;
    Identifier : sql.NullString;
    ShortVersion : sql.NullString;
    Version : sql.NullString;
    BundleSize : sql.NullInt64;
    DynamicSize : sql.NullInt64 }.

Class Datastore (A : Type) := {
  DeleteDeviceApplications : A -> string -> A * option error;
  NewDeviceApp : A -> DeviceApplication -> A * option error
}.

End application.

(** ** package certificate *)
Module certificate.

Record Certificate := mkCertificate
  { CommonName : string;
    IsIdentity : bool;
    Data : list Byte.byte;
    DeviceUUID : string }.

Class Datastore (T : Type) := {
  ReplaceCertificatesByDeviceUUID :
    T -> string -> list Certificate -> T * option error
}.

End certificate.

(** ** package command *)
Module command.

(** [command.Service], as far as [connect] calls it.  [Find] reads; its
    payload is taken as a value, which a failing lookup leaves at whatever
    the store returns with the error. *)
Class Service (C : Type) := {
  Find : C -> string -> mdm.Payload * option error;
  NewCommand : C -> mdm.CommandRequest -> C * (mdm.Payload * option error);
  DeleteCommand : C -> string -> string -> C * (Z * option error)
}.

End command.

(** ** package connect *)
Module connect.

(** [type service struct]: one field per store, holding its state. *)
Record service (C D A T : Type) := mkService
  { commands : C; devices : D; apps : A; certs : T }.

Arguments mkService {C D A T}.
Arguments commands {C D A T}.
Arguments devices {C D A T}.
Arguments apps {C D A T}.
Arguments certs {C D A T}.

Section Service.

Context {C D A T : Type}.
Context `{CS : command.Service C} `{DS : device.Datastore D}.
Context `{AS : application.Datastore A} `{TS : certificate.Datastore T}.

(** [json.Marshal(req.QueryResponses)] and [time.Now().UTC()]. *)
Variable json_Marshal : mdm.QueryResponses -> list Byte.byte * option error.
Variable now : Z.

Abbreviation svc_t := (service C D A T).

Definition set_commands (svc : svc_t) (c : C) : svc_t :=
  mkService c (devices svc) (apps svc) (certs svc).
Definition set_devices (svc : svc_t) (d : D) : svc_t :=
  mkService (commands svc) d (apps svc) (certs svc).
Definition set_apps (svc : svc_t) (a : A) : svc_t :=
  mkService (commands svc) (devices svc) a (certs svc).
Definition set_certs (svc : svc_t) (t : T) : svc_t :=
  mkService (commands svc) (devices svc) (apps svc) t.

(** [func (svc service) checkRequeue(deviceUDID string) (int, error)] *)
Definition checkRequeue (svc : svc_t) (deviceUDID : string)
  : svc_t * (Z * option error) :=
  let '(existing, err) :=
    device.GetDeviceByUDID (devices svc) deviceUDID ["awaiting_configuration"] in
  match err with
  | Some err => (svc, (0, Some (errors.Wrap err "check and requeue")))
  | None =>
    if device.AwaitingConfiguration existing then
      let cmdRequest := mdm.mkCommandRequest deviceUDID "DeviceConfigured" in
      let '(c, (_, err)) := command.NewCommand (commands svc) cmdRequest in
      match err with
      | Some err => (set_commands svc c, (0, Some err))
      | None => (set_commands svc c, (1, None))
      end
    else (svc, (0, None))
  end.

(** [func (svc service) ackQueryResponses(req mdm.Response) error] *)
Definition ackQueryResponses (svc : svc_t) (req : mdm.Response)
  : svc_t * option error :=
  let qr := mdm.QueryResponses_ req in
  let '(devices, err) :=
    device.Devices (devices svc)
      [device.SerialNumber (mdm.QR_SerialNumber qr); device.ByUDID (mdm.UDID req)] in
  match err with
  | Some err => (svc, Some (errors.Wrap err "ackQueryResponses fetching device"))
  | None =>
    match devices with
    | [] => (svc, Some (errors.New "no enrolled device matches the one responding"))
    | _ :: _ :: _ =>
      (svc, Some ("expected a single device for udid: " ++ mdm.UDID req
                  ++ ", serial number: " ++ mdm.QR_SerialNumber qr
                  ++ ", but got more than one."))
    | [existing] =>
      let '(blob, err) := json_Marshal qr in
      match err with
      | Some err => (svc, Some err)
      | None =>
        let serialNumber := sql.NullString_Scan (Some (mdm.QR_SerialNumber qr)) in
        let existing :=
          device.mkDevice
            (device.UUID existing) (device.UDID existing)
            serialNumber
            (mdm.QR_ProductName qr) (mdm.QR_BuildVersion qr)
            (mdm.QR_DeviceName qr) (mdm.QR_IMEI qr) (mdm.QR_MEID qr)
            (mdm.QR_Model qr) (mdm.QR_OSVersion qr)
            now blob
            (device.AwaitingConfiguration existing) in
        let '(d, err) := device.Save (connect.devices svc) "queryResponses" existing in
        (set_devices svc d, err)
      end
    end
  end.

(** The row built in the body of the [for] loop of
    [ackInstalledApplicationList].  A string is valid when it is not
    empty; each size goes through [Scan], boxed as a [uint32]. *)
Definition newApp (devUUID : string) (reqApp : mdm.InstalledApplicationListItem)
  : application.DeviceApplication :=
  let identifier :=
    sql.mkNullString (mdm.App_Identifier reqApp)
                     (negb (mdm.App_Identifier reqApp =? "")%string) in
  let shortVersion :=
    sql.mkNullString (mdm.App_ShortVersion reqApp)
                     (negb (mdm.App_ShortVersion reqApp =? "")%string) in
  let version :=
    sql.mkNullString (mdm.App_Version reqApp)
                     (negb (mdm.App_Version reqApp =? "")%string) in
  let bundleSize := sql.NullInt64_Scan (Some (mdm.App_BundleSize reqApp)) in
  let dynamicSize := sql.NullInt64_Scan (Some (mdm.App_DynamicSize reqApp)) in
  application.mkDeviceApplication
    devUUID (mdm.App_Name reqApp)
    identifier shortVersion version bundleSize dynamicSize.

(** The [for i, reqApp := range req.InstalledApplicationList] loop:
    one [NewDeviceApp] per entry, leaving at the first error (what the
    loop prints on the way out is not modelled; [requestApps] is never
    read). *)
Fixpoint insertApps (a : A) (devUUID : string)
         (l : list mdm.InstalledApplicationListItem) : A * option error :=
  match l with
  | [] => (a, None)
  | reqApp :: l' =>
    let '(a', err) := application.NewDeviceApp a (newApp devUUID reqApp) in
    match err with
    | Some err => (a', Some ("inserting an application for device: " ++ err))
    | None => insertApps a' devUUID l'
    end
  end.

(** [func (svc service) ackInstalledApplicationList(req mdm.Response) error] *)
Definition ackInstalledApplicationList (svc : svc_t) (req : mdm.Response)
  : svc_t * option error :=
  let '(dev, err) := device.GetDeviceByUDID (devices svc) (mdm.UDID req) ["device_uuid"] in
  match err with
  | Some err => (svc, Some (errors.Wrap err "getting a device record by udid"))
  | None =>
    let '(a, err) := application.DeleteDeviceApplications (apps svc) (device.UUID dev) in
    match err with
    | Some err => (set_apps svc a, Some ("clearing applications for device: " ++ err))
    | None =>
      let '(a, err) := insertApps a (device.UUID dev) (mdm.InstalledApplicationList req) in
      (set_apps svc a, err)
    end
  end.

(** [func (svc service) ackCertificateList(req mdm.Response) error] *)
Definition ackCertificateList (svc : svc_t) (req : mdm.Response)
  : svc_t * option error :=
  let '(device, err) := device.GetDeviceByUDID (devices svc) (mdm.UDID req) ["device_uuid"] in
  match err with
  | Some err => (svc, Some (errors.Wrap err "getting a device record by udid"))
  | None =>
    let certs :=
      map (fun cert =>
             certificate.mkCertificate
               (mdm.Cert_CommonName cert) (mdm.Cert_IsIdentity cert)
               (mdm.Cert_Data cert) (device.UUID device))
          (mdm.CertificateList req) in
    let '(t, err) :=
      certificate.ReplaceCertificatesByDeviceUUID
        (connect.certs svc) (device.UUID device) certs in
    (set_certs svc t, err)
  end.

(** The [switch requestPayload.Command.RequestType] of [Acknowledge]
    (service.go:47-62): the reconciliation routine picked by the
    request type, nothing for any other type. *)
Definition dispatch (requestType : string) (svc : svc_t) (req : mdm.Response)
  : svc_t * option error :=
  if (requestType =? "DeviceInformation")%string then ackQueryResponses svc req
  else if (requestType =? "InstalledApplicationList")%string
       then ackInstalledApplicationList svc req
  else if (requestType =? "CertificateList")%string then ackCertificateList svc req
  else (svc, None).

(** [func (svc service) Acknowledge(ctx, req mdm.Response) (int, error)].
    The error of [Find] is overwritten before it is ever read. *)
Definition Acknowledge (svc : svc_t) (req : mdm.Response)
  : svc_t * (Z * option error) :=
  let '(requestPayload, _) := command.Find (commands svc) (mdm.CommandUUID req) in
  let '(svc, err) :=
    dispatch (mdm.RequestType (mdm.Payload_Command requestPayload)) svc req in
  match err with
  | Some err => (svc, (0, Some err))
  | None =>
    let '(c, (total, err)) :=
      command.DeleteCommand (commands svc) (mdm.UDID req) (mdm.CommandUUID req) in
    let svc := set_commands svc c in
    match err with
    | Some err => (svc, (total, Some err))
    | None =>
      if total =? 0 then
        let '(svc, (total, err)) := checkRequeue svc (mdm.UDID req) in
        match err with
        | Some err => (svc, (total, Some err))
        | None => (svc, (total, None))
        end
      else (svc, (total, None))
    end
  end.

(** [func (svc service) FailCommand(ctx, req mdm.Response) (int, error)] *)
Definition FailCommand (svc : svc_t) (req : mdm.Response)
  : svc_t * (Z * option error) :=
  let '(c, r) :=
    command.DeleteCommand (commands svc) (mdm.UDID req) (mdm.CommandUUID req) in
  (set_commands svc c, r).

End Service.

End connect.

(** * Reference stores

    The packages [command], [device], [application] and [certificate] are
    not among the sources.  The stores below follow the contract the
    specification gives for each of them; they are the instances at which
    store-dependent statements are read. *)

(** ** Command Store *)
Module commandstore.

Record Entry := mkEntry { entry_udid : string; entry_payload : mdm.Payload }.

(** Modelled from the spec: the Command Store of section 4.1 (package
    [command] is missing).  [pending] is the queue, in creation order,
    each entry tagged with its device; [metadata] keeps every command
    ever created, so that [Find] resolves a command whether or not it is
    still queued; [created] numbers the identifiers. *)
Record DB := mkDB
  { pending : list Entry; metadata : list mdm.Payload; created : nat }.

Definition is_cmd (deviceUDID commandUUID : string) (e : Entry) : bool :=
  ((entry_udid e =? deviceUDID) &&
   (mdm.Payload_CommandUUID (entry_payload e) =? commandUUID))%string.

(** The queue of one device. *)
Definition queue (db : DB) (deviceUDID : string) : list Entry :=
  filter (fun e => (entry_udid e =? deviceUDID)%string) (pending db).

(** Every queued command is known to the metadata lookup; [NewCommand]
    and [DeleteCommand] keep it so. *)
Definition known_pending (db : DB) : bool :=
  forallb (fun e =>
             existsb (fun p => (mdm.Payload_CommandUUID p =?
                                mdm.Payload_CommandUUID (entry_payload e))%string)
                     (metadata db))
          (pending db).

Definition fresh_id (n : nat) : string :=
  "cmd-" ++ NilEmpty.string_of_uint (Nat.to_uint n).

(** Modelled from the spec: [FindMetadata] (section 4.1); an unknown
    identifier signals "command not found".  The spec promises no payload
    with that error, and [Acknowledge] reads the payload before the error:
    the zero value stands here for a payload that can be read and names no
    request type.  A store that answers with a nil pointer makes
    [Acknowledge] panic at service.go:47; the embedding has no such
    answer. *)
Definition Find (db : DB) (commandUUID : string) : mdm.Payload * option error :=
  match find (fun p => (mdm.Payload_CommandUUID p =? commandUUID)%string)
             (metadata db) with
  | Some p => (p, None)
  | None => (mdm.zero_Payload, Some "command not found")
  end.

(** Modelled from the spec: [Create] (section 4.1) appends a new command
    to the tail of the device's queue. *)
Definition NewCommand (db : DB) (req : mdm.CommandRequest)
  : DB * (mdm.Payload * option error) :=
  let p := mdm.mkPayload (fresh_id (created db))
                         (mdm.mkCommand (mdm.Request_RequestType req)) in
  (mkDB (pending db ++ [mkEntry (mdm.Request_UDID req) p])
        (metadata db ++ [p])
        (S (created db)),
   (p, None)).

(** Modelled from the spec: [Remove] (section 4.1) deletes the command
    wherever it stands in the device's queue and returns how many
    commands the device still has; an identifier that is not queued is
    not an error. *)
Definition DeleteCommand (db : DB) (deviceUDID commandUUID : string)
  : DB * (Z * option error) :=
  let db' := mkDB (filter (fun e => negb (is_cmd deviceUDID commandUUID e))
                          (pending db))
                  (metadata db) (created db) in
  (db', (Z.of_nat (length (queue db' deviceUDID)), None)).

#[global] Instance service : command.Service DB :=
  {| command.Find := Find;
     command.NewCommand := NewCommand;
     command.DeleteCommand := DeleteCommand |}.

End commandstore.

(** ** Device Registry *)
Module devicestore.

(** Modelled from the spec: the Device Registry (sections 2 and 6;
    package [device] is missing), a table of device records. *)
Definition DB := list device.Device.

Definition matches (d : device.Device) (p : device.Param) : bool :=
  match p with
  | device.SerialNumber v =>
    sql.NullString_Valid (device.SerialNumber_ d) &&
    (sql.NullString_String (device.SerialNumber_ d) =? v)%string
  | device.ByUDID v => (device.UDID d =? v)%string
  end.

(** Modelled from the spec: lookup-by-UDID (section 6); a device that is
    not enrolled is a failure (section 4.3).  The whole record is
    returned, whichever fields are asked for. *)
Definition GetDeviceByUDID (db : DB) (udid : string) (fields : list string)
  : device.Device * option error :=
  match find (fun d => (device.UDID d =? udid)%string) db with
  | Some d => (d, None)
  | None => (device.zero_Device, Some "device not found")
  end.

(** Modelled from the spec: lookup-by-serial-and-UDID (section 6),
    returning zero, one or many candidates: the records that match the
    combination of the filters. *)
Definition Devices (db : DB) (params : list device.Param)
  : list device.Device * option error :=
  (filter (fun d => forallb (matches d) params) db, None).

(** Modelled from the spec: save/overwrite (section 6), keyed by the
    internal identifier of the device. *)
Definition Save (db : DB) (msg : string) (dev : device.Device)
  : DB * option error :=
  (map (fun d => if (device.UUID d =? device.UUID dev)%string then dev else d) db,
   None).

#[global] Instance datastore : device.Datastore DB :=
  {| device.GetDeviceByUDID := GetDeviceByUDID;
     device.Devices := Devices;
     device.Save := Save |}.

End devicestore.

(** ** Application Inventory *)
Module appstore.

(** Modelled from the spec: the Application Inventory (sections 3 and 6;
    package [application] is missing): the rows of every device, and the
    store's verdict on a row it is asked to insert ([rejects r = Some e]
    when the insert of [r] fails with [e], section 7 "persistence
    failure"). *)
Record DB := mkDB
  { rows : list application.DeviceApplication;
    rejects : application.DeviceApplication -> option error }.

(** The rows of one device. *)
Definition inventory (db : DB) (deviceUUID : string)
  : list application.DeviceApplication :=
  filter (fun r => (application.DeviceUUID r =? deviceUUID)%string) (rows db).

(** The rows of every other device. *)
Definition others (db : DB) (deviceUUID : string)
  : list application.DeviceApplication :=
  filter (fun r => negb (application.DeviceUUID r =? deviceUUID)%string) (rows db).

(** Modelled from the spec: delete-all-for-device (section 6). *)
Definition DeleteDeviceApplications (db : DB) (deviceUUID : string)
  : DB * option error :=
  (mkDB (others db deviceUUID) (rejects db), None).

(** Modelled from the spec: insert-one (section 6); a rejected row is
    not stored.  The verdict of this store depends on the row alone;
    [application_contract] covers the stores whose verdict depends on
    what they hold or on the moment of the call. *)
Definition NewDeviceApp (db : DB) (r : application.DeviceApplication)
  : DB * option error :=
  match rejects db r with
  | Some e => (db, Some e)
  | None => (mkDB (rows db ++ [r]) (rejects db), None)
  end.

#[global] Instance datastore : application.Datastore DB :=
  {| application.DeleteDeviceApplications := DeleteDeviceApplications;
     application.NewDeviceApp := NewDeviceApp |}.

End appstore.

(** ** Certificate Inventory *)
Module certstore.

(** Modelled from the spec: the Certificate Inventory (sections 3 and 6;
    package [certificate] is missing). *)
Definition DB := list certificate.Certificate.

Definition inventory (db : DB) (deviceUUID : string) : list certificate.Certificate :=
  filter (fun c => (certificate.DeviceUUID c =? deviceUUID)%string) db.

(** Modelled from the spec: replace-all-for-device (section 6). *)
Definition ReplaceCertificatesByDeviceUUID
           (db : DB) (deviceUUID : string) (certs : list certificate.Certificate)
  : DB * option error :=
  ((filter (fun c => negb (certificate.DeviceUUID c =? deviceUUID)%string) db
      ++ certs)%list,
   None).

#[global] Instance datastore : certificate.Datastore DB :=
  {| certificate.ReplaceCertificatesByDeviceUUID := ReplaceCertificatesByDeviceUUID |}.

End certstore.

(** * Auxiliary definitions for the statements *)

Import connect.

(** The three request types that have a reconciliation routine. *)
Definition reconciled (requestType : string) : bool :=
  ((requestType =? "DeviceInformation") ||
   (requestType =? "InstalledApplicationList") ||
   (requestType =? "CertificateList"))%string.

(** ** What a reader of an inventory can see while a replace routine runs

    The routines hold no lock and open no transaction: each store call
    takes effect on its own.  A reader scheduled between two calls sees the
    store as the previous call left it.  [.._states] lists, in order, the
    state of the inventory after each store call of the routine. *)
Section Observable.

Context {C D A T : Type}.
Context `{CS : command.Service C} `{DS : device.Datastore D}.
Context `{AS : application.Datastore A} `{TS : certificate.Datastore T}.

(** The states after each [NewDeviceApp] of the loop. *)
Fixpoint insertApps_states (a : A) (devUUID : string)
         (l : list mdm.InstalledApplicationListItem) : list A :=
  match l with
  | [] => []
  | reqApp :: l' =>
    let '(a', err) := application.NewDeviceApp a (newApp devUUID reqApp) in
    a' :: match err with
          | Some _ => []
          | None => insertApps_states a' devUUID l'
          end
  end.

(** The states after [DeleteDeviceApplications] and after each
    [NewDeviceApp] of [ackInstalledApplicationList]. *)
Definition ackInstalledApplicationList_states
           (svc : service C D A T) (req : mdm.Response) : list A :=
  let '(dev, err) :=
    device.GetDeviceByUDID (devices svc) (mdm.UDID req) ["device_uuid"] in
  match err with
  | Some _ => []
  | None =>
    let '(a, err) :=
      application.DeleteDeviceApplications (apps svc) (device.UUID dev) in
    a :: match err with
         | Some _ => []
         | None =>
           insertApps_states a (device.UUID dev) (mdm.InstalledApplicationList req)
         end
  end.

(** The state after the one store call of [ackCertificateList]. *)
Definition ackCertificateList_states
           (svc : service C D A T) (req : mdm.Response) : list T :=
  let '(dev, err) :=
    device.GetDeviceByUDID (devices svc) (mdm.UDID req) ["device_uuid"] in
  match err with
  | Some _ => []
  | None => [certs (fst (ackCertificateList svc req))]
  end.

End Observable.

(** ** A small fleet, for the closed examples *)
Module fleet.

Definition world :=
  service commandstore.DB devicestore.DB appstore.DB certstore.DB.

Definition json_Marshal (qr : mdm.QueryResponses)
  : list Byte.byte * option error := ([], None).

Definition now : Z := 1700000000.

(** An enrolled device that is still being set up. *)
Definition phone : device.Device :=
  device.mkDevice "uuid-1" "UDID-1" (sql.mkNullString "SN-1" true)
                  "iPhone" "14A" "Ada's phone" "" "" "A1549" "10.0"
                  0 [] true.

(** The same device once it is configured. *)
Definition phone_configured : device.Device :=
  device.mkDevice "uuid-1" "UDID-1" (sql.mkNullString "SN-1" true)
                  "iPhone" "14A" "Ada's phone" "" "" "A1549" "10.0"
                  0 [] false.

(** A second record claiming the same UDID and serial number. *)
Definition phone_again : device.Device :=
  device.mkDevice "uuid-2" "UDID-1" (sql.mkNullString "SN-1" true)
                  "iPhone" "14A" "Ada's phone" "" "" "A1549" "10.0"
                  0 [] false.

Definition p_info := mdm.mkPayload "c-info" (mdm.mkCommand "DeviceInformation").
Definition p_apps := mdm.mkPayload "c-apps" (mdm.mkCommand "InstalledApplicationList").
Definition p_certs := mdm.mkPayload "c-certs" (mdm.mkCommand "CertificateList").
Definition p_profiles := mdm.mkPayload "c-prof" (mdm.mkCommand "ProfileList").

(** A Command Store in which [p] is the only command queued for the
    phone. *)
Definition queued (p : mdm.Payload) : commandstore.DB :=
  commandstore.mkDB [commandstore.mkEntry "UDID-1" p]
                    [p_info; p_apps; p_certs; p_profiles] 4.

(** An Application Inventory with one row for the phone and one for
    another device; it refuses rows named "Broken". *)
Definition mail : application.DeviceApplication :=
  application.mkDeviceApplication
    "uuid-1" "Mail" (sql.mkNullString "com.apple.mail" true)
    (sql.mkNullString "" false) (sql.mkNullString "" false)
    (sql.mkNullInt64 10 true) (sql.mkNullInt64 20 true).

Definition maps_elsewhere : application.DeviceApplication :=
  application.mkDeviceApplication
    "uuid-9" "Maps" (sql.mkNullString "com.apple.maps" true)
    (sql.mkNullString "" false) (sql.mkNullString "" false)
    (sql.mkNullInt64 30 true) (sql.mkNullInt64 40 true).

Definition inventory0 : appstore.DB :=
  appstore.mkDB [mail; maps_elsewhere]
    (fun r => if (application.Name r =? "Broken")%string
              then Some "insert refused" else None).

Definition world_with (c : commandstore.DB) (d : devicestore.DB) : world :=
  mkService c d inventory0 [].

Definition no_answers : mdm.QueryResponses :=
  mdm.mkQueryResponses "" "" "" "" "" "" "" "".

Definition answers : mdm.QueryResponses :=
  mdm.mkQueryResponses "SN-1" "iPhone" "14B" "Ada's phone" "" "" "A1549" "10.1".

(** The phone acknowledges command [id]. *)
Definition ack (id : string) : mdm.Response :=
  mdm.mkResponse "UDID-1" id no_answers [] [].

Definition ack_info : mdm.Response :=
  mdm.mkResponse "UDID-1" "c-info" answers [] [].

(** An application the device reports with its name only. *)
Definition notes : mdm.InstalledApplicationListItem :=
  mdm.mkInstalledApplicationListItem "Notes" "" "" "" 0 0.

Definition safari : mdm.InstalledApplicationListItem :=
  mdm.mkInstalledApplicationListItem "Safari" "com.apple.safari" "10" "602.1" 5 6.

Definition broken : mdm.InstalledApplicationListItem :=
  mdm.mkInstalledApplicationListItem "Broken" "" "" "" 0 0.

Definition ack_apps (l : list mdm.InstalledApplicationListItem) : mdm.Response :=
  mdm.mkResponse "UDID-1" "c-apps" no_answers l [].

Definition ack_certs (l : list mdm.CertificateListItem) : mdm.Response :=
  mdm.mkResponse "UDID-1" "c-certs" no_answers [] l.

End fleet.

(** * package main: the helpers of the start-up code

    The process environment is what [os.Getenv] answers: a function from
    names to values, [""] for a variable that is not set.  A logger is the
    list of the records written so far, each record the list of the
    arguments of one [logger.Log] call.  [os.Exit] ends the run: a
    function that may call it returns a [result]. *)
Module main.

Definition Env := string -> string.

Definition Logger := list (list string).

(** [logger.Log(keyvals...)] *)
Definition Log (logger : Logger) (keyvals : list string) : Logger :=
  (logger ++ [keyvals])%list.

Inductive result (X : Type) :=
| Returned (x : X)
| Exited (code : Z).

Arguments Returned {X}.
Arguments Exited {X}.

(** [func checkEmptyArgs(args ...string) bool] *)
Fixpoint checkEmptyArgs (args : list string) : bool :=
  match args with
  | [] => false
  | arg :: args' => if (arg =? "")%string then true else checkEmptyArgs args'
  end.

(** [func envString(key, def string) string] *)
Definition envString (env : Env) (key def : string) : string :=
  if negb (env key =? "")%string then env key else def.

(** [func envBool(key string) bool] *)
Definition envBool (env : Env) (key : string) : bool :=
  if (env key =? "true")%string then true else false.

(** [func checkTLSFlags(key, cert string) error] *)
Definition checkTLSFlags (key cert : string) : option error :=
  if (key =? "")%string || (cert =? "")%string
  then Some (errors.New "You must provide a valid path to a TLS cert and key")
  else None.

(** [func defaultPort(tls bool) string] *)
Definition defaultPort (tls : bool) : string :=
  if tls then "443" else "80".

(** [func getPGConnFromENV(logger log.Logger, host string) string] *)
Definition getPGConnFromENV (env : Env) (logger : Logger) (host : string)
  : Logger * string :=
  let user := env "POSTGRES_ENV_POSTGRES_USER" in
  let user := if (user =? "")%string then "postgres" else user in
  let dbname := env "POSTGRES_ENV_POSTGRES_DB" in
  let dbname := if (dbname =? "")%string then user else dbname in
  let password := env "POSTGRES_ENV_POSTGRES_PASSWORD" in
  let password := if (password =? "")%string then "postgres" else password in
  let sslmode := env "POSTGRES_ENV_SSLMODE" in
  let '(logger, sslmode) :=
    if (sslmode =? "")%string
    then (Log logger
            ["msg"; "POSTGRES_ENV_SSLMODE not specified, using 'require' by default"],
          "require")
    else (logger, sslmode) in
  let conn := "user=" ++ user ++ " password=" ++ password ++ " dbname=" ++ dbname
              ++ " sslmode=" ++ sslmode ++ " host=" ++ host in
  (logger, conn).

(** [func getRedisConnFromENV(host string) string] *)
Definition getRedisConnFromENV (env : Env) (host : string) : string :=
  let port := env "REDIS_PORT_6379_TCP_PORT" in
  host ++ ":" ++ port.

(** [dep.Config] *)
Record Config := mkConfig
  { ConsumerKey : string;
    ConsumerSecret : string;
    AccessToken : string;
    AccessSecret : string }.

(** The [depsimDefault] of [depClient]: the credentials of the simulator. *)
Definition depsimDefault : Config :=
  mkConfig
    "CK_48dd68d198350f51258e885ce9a5c37ab7f98543c4a697323d75682a6c10a32501cb247e3db08105db868f73f2c972bdb6ae77112aea803b9219eb52689d42e6"
    "CS_34c7b2b531a600d99a0e4edcf4a78ded79b86ef318118c2f5bcfee1b011108c32d5302df801adbe29d446eb78f02b13144e323eb9aad51c79f01e50cb45c3a68"
    "AT_927696831c59ba510cfe4ec1a69e5267c19881257d4bca2906a99d0785b785a6f6fdeb09774954fdd5e2d0ad952e3af52c6d8d2f21c924ba0caf4a031c158b89"
    "AS_c31afd7a09691d83548489336e8ff1cb11b82b6bca13f793344496a556b1f4972eaff4dde6deb5ac9cf076fdfa97ec97699c34d515947b9cf9ed31c99dded6ba".

Section DepClient.

(** [dep.Client], and [dep.NewClient(config, opts...)] called with the
    option [dep.ServerURL(url)] ([Some url]) or with no option. *)
Variable Client : Type.
Variable NewClient : Config -> option string -> Client * option error.

(** [func depClient(logger, consumerKey, consumerSecret, accessToken,
    accessSecret, serverURL string, depsim bool) dep.Client].  [dial] is
    the code after the choice of [config], which the exit of the middle
    branch never reaches. *)
Definition depClient (logger : Logger)
           (consumerKey consumerSecret accessToken accessSecret serverURL : string)
           (depsim : bool) : Logger * result Client :=
  let dial (config : Config) : Logger * result Client :=
    let '(client, err) :=
      if negb (serverURL =? "")%string
      then NewClient config (Some serverURL)
      else NewClient config None in
    match err with
    | Some err => (Log logger ["err"; err], Exited 1)
    | None => (logger, Returned client)
    end in
  if depsim then dial depsimDefault
  else if checkEmptyArgs [consumerKey; consumerSecret; accessToken; accessSecret]
  then
    let logger := Log logger ["err"; "must specify DEP server credentials"] in
    let logger := Log logger ["ConsumerKey"; consumerKey;
                              "ConsumerSecret"; consumerSecret;
                              "AccessToken"; accessToken;
                              "AccessSecret"; accessSecret] in
    (logger, Exited 1)
  else dial (mkConfig consumerKey consumerSecret accessToken accessSecret).

End DepClient.

Section Ping.

(** [db.Ping()]: [Ping k] is the answer to the [k]-th call. *)
Variable Ping : Z -> option error.

(** The state of the wait: the logger and the seconds slept so far. *)
Definition Waiting := (Logger * Z)%type.

(** The [for attempts := 1; attempts <= maxAttempts; attempts++] loop of
    [main] (src/connect/service.go:358-365).  [remaining] counts the values of
    [attempts] that are still within [maxAttempts]; the loop returns the
    last [dbError]. *)
Fixpoint pingLoop (remaining : nat) (attempts : Z) (dbError : option error)
         (w : Waiting) : Waiting * option error :=
  match remaining with
  | O => (w, dbError)
  | S remaining' =>
    let dbError := Ping attempts in
    match dbError with
    | None => (w, dbError)
    | Some e =>
      let logger := Log (fst w) ["msg"; "could not connect to postgres: " ++ e] in
      let slept := snd w + attempts in
      pingLoop remaining' (attempts + 1) dbError (logger, slept)
    end
  end.

Definition maxAttempts : nat := 20.

(** The wait for the database in [main] (src/connect/service.go:356-369): the
    loop, then the exit when the last ping failed. *)
Definition waitForDatabase (logger : Logger) : Waiting * result unit :=
  let '((logger, slept), dbError) := pingLoop maxAttempts 1 None (logger, 0) in
  match dbError with
  | Some e => ((Log logger ["err"; e], slept), Exited 1)
  | None => ((logger, slept), Returned tt)
  end.

End Ping.

End main.

(** * The contract of the Application Inventory, for any implementation *)

(** Modelled from the spec: what the Application Inventory does (sections
    3, 6 and 7; package [application] is missing), for any implementation
    [A] whose rows are read by [stored].  Delete-all-for-device removes
    the rows of that device and no other; insert-one adds the row after
    those already stored; an insert that fails stores nothing.  When and
    why a call fails is left to the implementation. *)
Record application_contract {A : Type} `{application.Datastore A}
       (stored : A -> list application.DeviceApplication) : Prop :=
  mk_application_contract
    { deleted : forall a u a',
        application.DeleteDeviceApplications a u = (a', None) ->
        stored a'
        = filter (fun r => negb (application.DeviceUUID r =? u)%string) (stored a);
      inserted : forall a r a',
        application.NewDeviceApp a r = (a', None) ->
        stored a' = (stored a ++ [r])%list;
      not_inserted : forall a r a' e,
        application.NewDeviceApp a r = (a', Some e) ->
        stored a' = stored a }.

(** ** An inventory with one row per device and application name

    An example of an implementation whose verdict on an insert depends on
    what it already holds: a second row for the same device and the same
    name is refused. *)
Module uniquestore.

Definition DB := list application.DeviceApplication.

Definition holds (db : DB) (r : application.DeviceApplication) : bool :=
  existsb (fun x => ((application.DeviceUUID x =? application.DeviceUUID r) &&
                     (application.Name x =? application.Name r))%string)
          db.

Definition DeleteDeviceApplications (db : DB) (deviceUUID : string)
  : DB * option error :=
  (filter (fun r => negb (application.DeviceUUID r =? deviceUUID)%string) db, None).

Definition NewDeviceApp (db : DB) (r : application.DeviceApplication)
  : DB * option error :=
  if holds db r then (db, Some "duplicate application")
  else ((db ++ [r])%list, None).

#[global] Instance datastore : application.Datastore DB :=
  {| application.DeleteDeviceApplications := DeleteDeviceApplications;
     application.NewDeviceApp := NewDeviceApp |}.

End uniquestore.

(** * Properties of the dispatcher, for any implementation of the stores *)

Import connect.

Section Dispatcher.

Context {C D A T : Type}.
Context `{CS : command.Service C} `{DS : device.Datastore D}.
Context `{AS : application.Datastore A} `{TS : certificate.Datastore T}.

Variable json_Marshal : mdm.QueryResponses -> list Byte.byte * option error.
Variable now : Z.

Implicit Types (svc : service C D A T) (req : mdm.Response).

Lemma ackQueryResponses_commands svc req :
  commands (fst (ackQueryResponses json_Marshal now svc req)) = commands svc.
Proof.
  unfold ackQueryResponses.
  destruct (device.Devices _ _) as [ds [e|]]; [reflexivity|].
  destruct ds as [|d [|d' ds]]; try reflexivity.
  destruct (json_Marshal _) as [blob [e|]]; [reflexivity|].
  destruct (device.Save _ _ _) as [d1 e1]; reflexivity.
Qed.

Lemma ackInstalledApplicationList_commands svc req :
  commands (fst (ackInstalledApplicationList svc req)) = commands svc.
Proof.
  unfold ackInstalledApplicationList.
  destruct (device.GetDeviceByUDID _ _ _) as [dev [e|]]; [reflexivity|].
  destruct (application.DeleteDeviceApplications _ _) as [a [e|]]; [reflexivity|].
  destruct (insertApps _ _ _) as [a' e']; reflexivity.
Qed.

Lemma ackCertificateList_commands svc req :
  commands (fst (ackCertificateList svc req)) = commands svc.
Proof.
  unfold ackCertificateList.
  destruct (device.GetDeviceByUDID _ _ _) as [dev [e|]]; [reflexivity|].
  destruct (certificate.ReplaceCertificatesByDeviceUUID _ _ _) as [t e]; reflexivity.
Qed.

(** No reconciliation routine touches the Command Store. *)
Lemma dispatch_commands rt svc req :
  commands (fst (dispatch json_Marshal now rt svc req)) = commands svc.
Proof.
  unfold dispatch.
  destruct (rt =? "DeviceInformation")%string;
    [apply ackQueryResponses_commands|].
  destruct (rt =? "InstalledApplicationList")%string;
    [apply ackInstalledApplicationList_commands|].
  destruct (rt =? "CertificateList")%string;
    [apply ackCertificateList_commands|reflexivity].
Qed.

(** A request type without a routine is accepted as it is. *)
Lemma dispatch_default rt svc req :
  reconciled rt = false -> dispatch json_Marshal now rt svc req = (svc, None).
Proof.
  unfold reconciled, dispatch; intros H.
  apply orb_false_elim in H as [H H3].
  apply orb_false_elim in H as [H1 H2].
  rewrite H1, H2, H3; reflexivity.
Qed.

(** [checkRequeue] reads the Device Registry and writes only the
    Command Store. *)
Lemma checkRequeue_frame svc udid :
  let svc' := fst (checkRequeue svc udid) in
  devices svc' = devices svc /\ apps svc' = apps svc /\ certs svc' = certs svc.
Proof.
  unfold checkRequeue.
  destruct (device.GetDeviceByUDID _ _ _) as [d [e|]]; [cbn; auto|].
  destruct (device.AwaitingConfiguration d); [|cbn; auto].
  destruct (command.NewCommand _ _) as [c [p [e|]]]; cbn; auto.
Qed.

Lemma set_commands_same svc : set_commands svc (commands svc) = svc.
Proof. destruct svc; reflexivity. Qed.

(** What [Acknowledge] does once the reconciliation stage is over. *)
Lemma Acknowledge_after_dispatch svc req p ferr svc1 :
  command.Find (commands svc) (mdm.CommandUUID req) = (p, ferr) ->
  dispatch json_Marshal now (mdm.RequestType (mdm.Payload_Command p)) svc req
    = (svc1, None) ->
  Acknowledge json_Marshal now svc req =
    let '(c, (total, err)) :=
      command.DeleteCommand (commands svc1) (mdm.UDID req) (mdm.CommandUUID req) in
    match err with
    | Some err => (set_commands svc1 c, (total, Some err))
    | None =>
      if total =? 0 then checkRequeue (set_commands svc1 c) (mdm.UDID req)
      else (set_commands svc1 c, (total, None))
    end.
Proof.
  intros HF HD. unfold Acknowledge. rewrite HF, HD.
  destruct (command.DeleteCommand _ _ _) as [c [total [e|]]]; [reflexivity|].
  destruct (total =? 0); [|reflexivity].
  destruct (checkRequeue _ _) as [s [n [e|]]]; reflexivity.
Qed.

Lemma Acknowledge_dispatch_error svc req p ferr svc1 e :
  command.Find (commands svc) (mdm.CommandUUID req) = (p, ferr) ->
  dispatch json_Marshal now (mdm.RequestType (mdm.Payload_Command p)) svc req
    = (svc1, Some e) ->
  Acknowledge json_Marshal now svc req = (svc1, (0, Some e)).
Proof. intros HF HD. unfold Acknowledge. rewrite HF, HD. reflexivity. Qed.

(** ** Failures of the reconciliation stage *)

(** C2: when the request type resolved for the response is
    DeviceInformation, InstalledApplicationList or CertificateList and the
    routine selected for it returns an error, [Acknowledge] returns that
    very error (with a count of 0) and the Command Store is left as it
    was: the command is not removed. *)
Theorem C2_reconciliation_error_keeps_command svc req p ferr svc1 e :
  command.Find (commands svc) (mdm.CommandUUID req) = (p, ferr) ->
  (mdm.RequestType (mdm.Payload_Command p) = "DeviceInformation" /\
   ackQueryResponses json_Marshal now svc req = (svc1, Some e)) \/
  (mdm.RequestType (mdm.Payload_Command p) = "InstalledApplicationList" /\
   ackInstalledApplicationList svc req = (svc1, Some e)) \/
  (mdm.RequestType (mdm.Payload_Command p) = "CertificateList" /\
   ackCertificateList svc req = (svc1, Some e)) ->
  Acknowledge json_Marshal now svc req = (svc1, (0, Some e)) /\
  commands svc1 = commands svc.
Proof.
  intros HF H.
  assert (HD : dispatch json_Marshal now
                 (mdm.RequestType (mdm.Payload_Command p)) svc req = (svc1, Some e)).
  { unfold dispatch.
    destruct H as [[-> H] | [[-> H] | [-> H]]]; cbn; exact H. }
  split.
  - eapply Acknowledge_dispatch_error; eassumption.
  - pose proof (dispatch_commands
                  (mdm.RequestType (mdm.Payload_Command p)) svc req) as HC.
    rewrite HD in HC. exact HC.
Qed.

(** C5: acknowledging a DeviceInformation response for which the lookup by
    serial number and UDID finds no device fails with the error "no
    enrolled device matches the one responding", and nothing is mutated:
    registry, inventories and command queue are those of before. *)
Theorem C5_orphan_response_rejected svc req p ferr :
  command.Find (commands svc) (mdm.CommandUUID req) = (p, ferr) ->
  mdm.RequestType (mdm.Payload_Command p) = "DeviceInformation" ->
  device.Devices (devices svc)
    [device.SerialNumber (mdm.QR_SerialNumber (mdm.QueryResponses_ req));
     device.ByUDID (mdm.UDID req)] = ([], None) ->
  Acknowledge json_Marshal now svc req =
    (svc, (0, Some "no enrolled device matches the one responding")).
Proof.
  intros HF HT HDev.
  eapply Acknowledge_dispatch_error; [eassumption|].
  rewrite HT. cbn. unfold ackQueryResponses. rewrite HDev. reflexivity.
Qed.

(** C6: acknowledging a DeviceInformation response for which the lookup by
    serial number and UDID finds two devices or more fails with the
    "expected a single device ... but got more than one" error; no device
    is picked and nothing is mutated. *)
Theorem C6_ambiguous_response_rejected svc req p ferr ds :
  command.Find (commands svc) (mdm.CommandUUID req) = (p, ferr) ->
  mdm.RequestType (mdm.Payload_Command p) = "DeviceInformation" ->
  device.Devices (devices svc)
    [device.SerialNumber (mdm.QR_SerialNumber (mdm.QueryResponses_ req));
     device.ByUDID (mdm.UDID req)] = (ds, None) ->
  (2 <= length ds)%nat ->
  Acknowledge json_Marshal now svc req =
    (svc, (0, Some ("expected a single device for udid: " ++ mdm.UDID req
                    ++ ", serial number: "
                    ++ mdm.QR_SerialNumber (mdm.QueryResponses_ req)
                    ++ ", but got more than one."))).
Proof.
  intros HF HT HDev Hlen.
  eapply Acknowledge_dispatch_error; [eassumption|].
  rewrite HT. cbn. unfold ackQueryResponses. rewrite HDev.
  destruct ds as [|d [|d' ds]]; cbn in Hlen; try lia. reflexivity.
Qed.

(** C8 (amended): a failing [Acknowledge] is of one of three kinds.  Either
    the reconciliation routine failed, and then the Command Store is
    untouched, so the command stays queued; or the removal itself
    reported the error; or the removal emptied the queue and the
    evaluation of the auto-requeue rule failed, in which case the error is
    returned after the command has been removed. *)
Theorem C8_failure_stages svc req p ferr svc' n e :
  command.Find (commands svc) (mdm.CommandUUID req) = (p, ferr) ->
  Acknowledge json_Marshal now svc req = (svc', (n, Some e)) ->
  (dispatch json_Marshal now (mdm.RequestType (mdm.Payload_Command p)) svc req
     = (svc', Some e) /\ n = 0 /\ commands svc' = commands svc)
  \/
  (exists svc1 c,
     dispatch json_Marshal now (mdm.RequestType (mdm.Payload_Command p)) svc req
       = (svc1, None) /\
     ((command.DeleteCommand (commands svc1) (mdm.UDID req) (mdm.CommandUUID req)
         = (c, (n, Some e)) /\ svc' = set_commands svc1 c)
      \/
      (command.DeleteCommand (commands svc1) (mdm.UDID req) (mdm.CommandUUID req)
         = (c, (0, None)) /\
       checkRequeue (set_commands svc1 c) (mdm.UDID req) = (svc', (n, Some e))))).
Proof.
  intros HF HA.
  destruct (dispatch json_Marshal now
              (mdm.RequestType (mdm.Payload_Command p)) svc req)
    as [svc1 [e1|]] eqn:HD.
  - left.
    rewrite (Acknowledge_dispatch_error svc req p ferr svc1 e1 HF HD) in HA.
    inversion HA; subst.
    pose proof (dispatch_commands
                  (mdm.RequestType (mdm.Payload_Command p)) svc req) as HC.
    rewrite HD in HC. auto.
  - right. exists svc1.
    rewrite (Acknowledge_after_dispatch svc req p ferr svc1 HF HD) in HA.
    destruct (command.DeleteCommand _ _ _) as [c [total [e1|]]] eqn:HDel.
    + inversion HA; subst. exists c. split; [reflexivity|]. left. auto.
    + exists c. split; [reflexivity|]. right.
      destruct (total =? 0) eqn:Hz.
      * apply Z.eqb_eq in Hz. subst total. auto.
      * inversion HA.
Qed.


End Dispatcher.

(** * Properties that depend on the Command Store *)

Section WithCommandStore.

Context {D A T : Type}.
Context `{DS : device.Datastore D}.
Context `{AS : application.Datastore A} `{TS : certificate.Datastore T}.

Variable json_Marshal : mdm.QueryResponses -> list Byte.byte * option error.
Variable now : Z.

Implicit Types (svc : service commandstore.DB D A T) (req : mdm.Response).

Lemma queue_app db udid e :
  commandstore.queue
    (commandstore.mkDB (commandstore.pending db ++ [e])
                       (commandstore.metadata db ++ [commandstore.entry_payload e])
                       (S (commandstore.created db))) udid
  = (commandstore.queue db udid
       ++ if (commandstore.entry_udid e =? udid)%string then [e] else [])%list.
Proof.
  unfold commandstore.queue; cbn. rewrite filter_app. cbn.
  destruct (commandstore.entry_udid e =? udid)%string; reflexivity.
Qed.

(** The count returned by a removal is the length of the device's queue
    after it. *)
Lemma DeleteCommand_count db udid id c n err :
  commandstore.DeleteCommand db udid id = (c, (n, err)) ->
  err = None /\ n = Z.of_nat (length (commandstore.queue c udid)) /\
  commandstore.pending c =
    filter (fun e => negb (commandstore.is_cmd udid id e)) (commandstore.pending db) /\
  commandstore.metadata c = commandstore.metadata db /\
  commandstore.created c = commandstore.created db.
Proof.
  unfold commandstore.DeleteCommand. intros H. inversion H; subst. cbn. auto.
Qed.

Lemma filter_all {X : Type} (f : X -> bool) (l : list X) :
  (forall x, In x l -> f x = true) -> filter f l = l.
Proof.
  induction l as [|x l IH]; intros H; [reflexivity|].
  cbn. rewrite (H x (or_introl eq_refl)). f_equal.
  apply IH. intros y Hy. apply H. right. exact Hy.
Qed.

(** Removing an identifier the store has no metadata for changes nothing,
    provided every queued command has metadata. *)
Lemma DeleteCommand_unknown db udid id :
  find (fun p => (mdm.Payload_CommandUUID p =? id)%string)
       (commandstore.metadata db) = None ->
  commandstore.known_pending db = true ->
  fst (commandstore.DeleteCommand db udid id) = db.
Proof.
  intros HN HK. unfold commandstore.DeleteCommand. cbn [fst].
  rewrite filter_all; [destruct db; reflexivity|].
  intros en Hin. unfold commandstore.is_cmd.
  destruct (mdm.Payload_CommandUUID (commandstore.entry_payload en) =? id)%string
    eqn:E; [|rewrite andb_false_r; reflexivity].
  exfalso. apply String.eqb_eq in E.
  unfold commandstore.known_pending in HK.
  rewrite forallb_forall in HK. specialize (HK en Hin).
  apply existsb_exists in HK as (p & Hp & Hpe).
  apply String.eqb_eq in Hpe.
  pose proof (find_none _ _ HN p Hp) as Hf. cbn in Hf.
  rewrite Hpe, E, String.eqb_refl in Hf. discriminate.
Qed.

(** C3: when the reconciliation stage succeeds and the removal reports
    that no command remains, a device whose [AwaitingConfiguration] flag
    is set gets exactly one new command, of request type DeviceConfigured,
    at the tail of the store (it is then the only command of the device's
    queue) and [Acknowledge] returns 1; when the flag is not set the store
    is left as the removal left it and [Acknowledge] returns 0. *)
Theorem C3_auto_requeue svc req p ferr svc1 c d :
  command.Find (commands svc) (mdm.CommandUUID req) = (p, ferr) ->
  dispatch json_Marshal now (mdm.RequestType (mdm.Payload_Command p)) svc req
    = (svc1, None) ->
  command.DeleteCommand (commands svc1) (mdm.UDID req) (mdm.CommandUUID req)
    = (c, (0, None)) ->
  device.GetDeviceByUDID (devices svc1) (mdm.UDID req) ["awaiting_configuration"]
    = (d, None) ->
  if device.AwaitingConfiguration d then
    exists c' pl,
      Acknowledge json_Marshal now svc req = (set_commands svc1 c', (1, None)) /\
      mdm.RequestType (mdm.Payload_Command pl) = "DeviceConfigured" /\
      commandstore.pending c' =
        (commandstore.pending c ++ [commandstore.mkEntry (mdm.UDID req) pl])%list /\
      commandstore.queue c' (mdm.UDID req) = [commandstore.mkEntry (mdm.UDID req) pl]
  else
    Acknowledge json_Marshal now svc req = (set_commands svc1 c, (0, None)).
Proof.
  intros HF HD HDel HGet.
  rewrite (Acknowledge_after_dispatch _ _ _ _ _ _ _ HF HD), HDel.
  cbn. unfold checkRequeue. cbn [devices set_commands]. rewrite HGet.
  destruct (device.AwaitingConfiguration d); [|reflexivity].
  cbn.
  eexists _, (mdm.mkPayload (commandstore.fresh_id (commandstore.created c))
                            (mdm.mkCommand "DeviceConfigured")).
  split; [reflexivity|]. split; [reflexivity|]. split; [reflexivity|].
  apply DeleteCommand_count in HDel as (_ & Hn & _).
  assert (Hq : commandstore.queue c (mdm.UDID req) = []).
  { destruct (commandstore.queue c (mdm.UDID req)); [reflexivity|].
    cbn in Hn. lia. }
  pose proof (queue_app c (mdm.UDID req)
                (commandstore.mkEntry (mdm.UDID req)
                   (mdm.mkPayload (commandstore.fresh_id (commandstore.created c))
                                  (mdm.mkCommand "DeviceConfigured")))) as HQ.
  cbn [commandstore.entry_udid commandstore.entry_payload] in HQ.
  rewrite String.eqb_refl, Hq in HQ. exact HQ.
Qed.

(** C4: [FailCommand] never fails in this store; it removes the command
    from the queue of the device, returns the number of commands the
    device still has, and does nothing else: no command is created (the
    metadata and the identifier counter are unchanged, every pending
    command was pending before), whatever the flag of the device and
    whether or not the queue is now empty. *)
Theorem C4_FailCommand_only_removes svc req :
  let svc' := fst (FailCommand svc req) in
  let c := commands svc in
  let c' := commands svc' in
  snd (FailCommand svc req)
    = (Z.of_nat (length (commandstore.queue c' (mdm.UDID req))), None) /\
  commandstore.pending c' =
    filter (fun e => negb (commandstore.is_cmd (mdm.UDID req) (mdm.CommandUUID req) e))
           (commandstore.pending c) /\
  (forall e, In e (commandstore.pending c') -> In e (commandstore.pending c)) /\
  commandstore.metadata c' = commandstore.metadata c /\
  commandstore.created c' = commandstore.created c /\
  devices svc' = devices svc /\ apps svc' = apps svc /\ certs svc' = certs svc.
Proof.
  cbn. repeat split.
  intros e He. apply filter_In in He. tauto.
Qed.

End WithCommandStore.

(** * Properties that depend on the inventory stores *)

Section Observations.

Context {C D A T : Type}.
Context `{CS : command.Service C} `{DS : device.Datastore D}.
Context `{AS : application.Datastore A} `{TS : certificate.Datastore T}.

Lemma last_cons {X : Type} (l : list X) :
  forall x d, last (x :: l) d = last l x.
Proof.
  induction l as [|y l IH]; intros x d; [reflexivity|].
  change (last (x :: y :: l) d) with (last (y :: l) d).
  rewrite (IH y d), (IH y x). reflexivity.
Qed.

Lemma insertApps_states_last (l : list mdm.InstalledApplicationListItem) :
  forall (a : A) u, last (insertApps_states a u l) a = fst (insertApps a u l).
Proof.
  induction l as [|it l IH]; intros a u; [reflexivity|].
  cbn [insertApps_states insertApps].
  destruct (application.NewDeviceApp a (newApp u it)) as [a' [e|]]; [reflexivity|].
  rewrite last_cons. apply IH.
Qed.

(** The listed states end with the state the routine returns. *)
Lemma ackInstalledApplicationList_states_last (svc : service C D A T) req :
  last (ackInstalledApplicationList_states svc req) (apps svc)
  = apps (fst (ackInstalledApplicationList svc req)).
Proof.
  unfold ackInstalledApplicationList_states, ackInstalledApplicationList.
  destruct (device.GetDeviceByUDID _ _ _) as [dev [e|]]; [reflexivity|].
  destruct (application.DeleteDeviceApplications _ _) as [a [e|]]; [reflexivity|].
  pose proof (insertApps_states_last (mdm.InstalledApplicationList req)
                a (device.UUID dev)) as HL.
  destruct (insertApps a _ _) as [a' e']. rewrite last_cons. exact HL.
Qed.

End Observations.

Section WithAppStore.

Context {C D T : Type}.
Context `{CS : command.Service C} `{DS : device.Datastore D}.
Context `{TS : certificate.Datastore T}.

Variable json_Marshal : mdm.QueryResponses -> list Byte.byte * option error.
Variable now : Z.

Implicit Types (svc : service C D appstore.DB T) (req : mdm.Response).
Implicit Types (db : appstore.DB) (l : list mdm.InstalledApplicationListItem).

Lemma filter_newApp u l :
  filter (fun r => (application.DeviceUUID r =? u)%string) (map (newApp u) l)
  = map (newApp u) l.
Proof.
  induction l as [|it l IH]; [reflexivity|].
  cbn. rewrite String.eqb_refl. f_equal. exact IH.
Qed.

Lemma filter_out_newApp u l :
  filter (fun r => negb (application.DeviceUUID r =? u)%string) (map (newApp u) l)
  = [].
Proof.
  induction l as [|it l IH]; [reflexivity|].
  cbn. rewrite String.eqb_refl. exact IH.
Qed.

Lemma inventory_others db u :
  filter (fun r => (application.DeviceUUID r =? u)%string) (appstore.others db u) = [].
Proof.
  unfold appstore.others.
  induction (appstore.rows db) as [|r rs IH]; [reflexivity|].
  cbn. destruct (application.DeviceUUID r =? u)%string eqn:E; cbn; [exact IH|].
  rewrite E. exact IH.
Qed.

Lemma others_others db u :
  filter (fun r => negb (application.DeviceUUID r =? u)%string) (appstore.others db u)
  = appstore.others db u.
Proof.
  unfold appstore.others.
  induction (appstore.rows db) as [|r rs IH]; [reflexivity|].
  cbn. destruct (application.DeviceUUID r =? u)%string eqn:E; cbn; [exact IH|].
  rewrite E. cbn. f_equal. exact IH.
Qed.

(** The store after the rows of one device were deleted and [news], rows
    of that device, were appended. *)
Lemma replaced_inventory db u news rej :
  let db' := appstore.mkDB (appstore.others db u ++ map (newApp u) news) rej in
  appstore.inventory db' u = map (newApp u) news /\
  appstore.others db' u = appstore.others db u.
Proof.
  intros db'; subst db'. split.
  - unfold appstore.inventory. cbn [appstore.rows].
    rewrite filter_app, inventory_others, filter_newApp. reflexivity.
  - unfold appstore.others at 1. cbn [appstore.rows].
    rewrite filter_app, others_others, filter_out_newApp. apply app_nil_r.
Qed.

(** The loop over entries that are all accepted. *)
Lemma insertApps_accepted l : forall db u,
  (forall it, In it l -> appstore.rejects db (newApp u it) = None) ->
  insertApps db u l
  = (appstore.mkDB (appstore.rows db ++ map (newApp u) l) (appstore.rejects db), None).
Proof.
  induction l as [|it l IH]; intros db u Hacc.
  - cbn. rewrite app_nil_r. destruct db; reflexivity.
  - cbn [insertApps]. cbn [application.NewDeviceApp appstore.datastore].
    unfold appstore.NewDeviceApp. rewrite (Hacc it (or_introl eq_refl)).
    rewrite IH; cbn.
    + rewrite <- app_assoc. reflexivity.
    + intros it' Hin. apply Hacc. right. exact Hin.
Qed.

(** Every state the loop goes through holds the rows it started from
    followed by the rows of a prefix of the list. *)
Lemma insertApps_states_prefix l : forall db u s,
  In s (insertApps_states db u l) ->
  exists j, (j <= length l)%nat /\
    s = appstore.mkDB (appstore.rows db ++ map (newApp u) (firstn j l))
                      (appstore.rejects db).
Proof.
  induction l as [|it l IH]; intros db u s Hin; [destruct Hin|].
  cbn [insertApps_states application.NewDeviceApp appstore.datastore] in Hin.
  unfold appstore.NewDeviceApp in Hin.
  destruct (appstore.rejects db (newApp u it)) as [e|] eqn:Hrej.
  - destruct Hin as [<-|[]]. exists 0%nat. cbn. split; [lia|].
    rewrite app_nil_r. destruct db; reflexivity.
  - destruct Hin as [<-|Hin].
    + exists 1%nat. cbn. split; [lia|reflexivity].
    + apply IH in Hin as (j & Hj & ->). exists (S j). cbn. split; [lia|].
      rewrite <- app_assoc. reflexivity.
Qed.

(** Application Inventory Replace, when every insert is accepted: the
    rows of the device are exactly the rows built from the reported list,
    the rows of the other devices are kept. *)
Lemma ackInstalledApplicationList_snapshot svc req dev :
  device.GetDeviceByUDID (devices svc) (mdm.UDID req) ["device_uuid"] = (dev, None) ->
  (forall it, In it (mdm.InstalledApplicationList req) ->
     appstore.rejects (apps svc) (newApp (device.UUID dev) it) = None) ->
  let r := ackInstalledApplicationList svc req in
  snd r = None /\
  appstore.inventory (apps (fst r)) (device.UUID dev)
    = map (newApp (device.UUID dev)) (mdm.InstalledApplicationList req) /\
  appstore.others (apps (fst r)) (device.UUID dev)
    = appstore.others (apps svc) (device.UUID dev).
Proof.
  intros HGet Hacc. unfold ackInstalledApplicationList. rewrite HGet.
  cbn [application.DeleteDeviceApplications appstore.datastore].
  unfold appstore.DeleteDeviceApplications.
  rewrite insertApps_accepted by exact Hacc.
  cbn [fst snd apps set_apps appstore.rows appstore.rejects].
  split; [reflexivity|].
  apply (replaced_inventory (apps svc) (device.UUID dev)
           (mdm.InstalledApplicationList req) (appstore.rejects (apps svc))).
Qed.

(** The strings of a stored row are absent exactly when the reported
    string is empty; the sizes of a stored row are always present. *)
Lemma newApp_optional_fields u it :
  let r := newApp u it in
  sql.NullString_Valid (application.Identifier r)
    = negb (mdm.App_Identifier it =? "")%string /\
  sql.NullString_Valid (application.ShortVersion r)
    = negb (mdm.App_ShortVersion it =? "")%string /\
  sql.NullString_Valid (application.Version r)
    = negb (mdm.App_Version it =? "")%string /\
  application.BundleSize r = sql.mkNullInt64 (mdm.App_BundleSize it) true /\
  application.DynamicSize r = sql.mkNullInt64 (mdm.App_DynamicSize it) true.
Proof. cbn. auto. Qed.

End WithAppStore.

Section WithInventories.

Context {C D : Type}.
Context `{CS : command.Service C} `{DS : device.Datastore D}.

Implicit Types (svc : service C D appstore.DB certstore.DB) (req : mdm.Response).

Lemma certstore_replaced (db : certstore.DB) u (l : list mdm.CertificateListItem) :
  certstore.inventory
    (fst (certstore.ReplaceCertificatesByDeviceUUID db u
            (map (fun cert =>
                    certificate.mkCertificate
                      (mdm.Cert_CommonName cert) (mdm.Cert_IsIdentity cert)
                      (mdm.Cert_Data cert) u) l))) u
  = map (fun cert =>
           certificate.mkCertificate
             (mdm.Cert_CommonName cert) (mdm.Cert_IsIdentity cert)
             (mdm.Cert_Data cert) u) l.
Proof.
  unfold certstore.inventory, certstore.ReplaceCertificatesByDeviceUUID.
  cbn [fst]. rewrite filter_app.
  assert (H1 : filter (fun c => (certificate.DeviceUUID c =? u)%string)
                 (filter (fun c => negb (certificate.DeviceUUID c =? u)%string) db)
               = []).
  { induction db as [|c db IH]; [reflexivity|].
    cbn. destruct (certificate.DeviceUUID c =? u)%string eqn:E; cbn; [exact IH|].
    rewrite E. exact IH. }
  rewrite H1. cbn [app].
  induction l as [|c l IH]; [reflexivity|].
  cbn. rewrite String.eqb_refl. f_equal. exact IH.
Qed.

(** C9 (amended): what a reader can see while a replace routine runs, once
    the device is found.  Application Inventory Replace: the first state
    after a store call has no row for the device, and every state after a
    store call holds, for the device, the rows of a prefix of the reported
    list and nothing else, the rows of the other devices being kept.
    Certificate Inventory Replace: there is one store call, after which
    the certificates of the device are exactly those reported. *)
Theorem C9_states_seen_during_replace svc req dev :
  device.GetDeviceByUDID (devices svc) (mdm.UDID req) ["device_uuid"] = (dev, None) ->
  let u := device.UUID dev in
  (exists s0 rest,
     ackInstalledApplicationList_states svc req = s0 :: rest /\
     appstore.inventory s0 u = []) /\
  (forall s, In s (ackInstalledApplicationList_states svc req) ->
     exists j, (j <= length (mdm.InstalledApplicationList req))%nat /\
       appstore.inventory s u
         = firstn j (map (newApp u) (mdm.InstalledApplicationList req)) /\
       appstore.others s u = appstore.others (apps svc) u) /\
  (exists t,
     ackCertificateList_states svc req = [t] /\
     certstore.inventory t u
       = map (fun cert =>
                certificate.mkCertificate
                  (mdm.Cert_CommonName cert) (mdm.Cert_IsIdentity cert)
                  (mdm.Cert_Data cert) u)
             (mdm.CertificateList req)).
Proof.
  intros HGet u.
  assert (HS : ackInstalledApplicationList_states svc req
               = appstore.mkDB (appstore.others (apps svc) u)
                               (appstore.rejects (apps svc))
                 :: insertApps_states
                      (appstore.mkDB (appstore.others (apps svc) u)
                                     (appstore.rejects (apps svc)))
                      u (mdm.InstalledApplicationList req)).
  { unfold ackInstalledApplicationList_states. rewrite HGet. reflexivity. }
  split; [|split].
  - eexists _, _. split; [exact HS|].
    unfold appstore.inventory. cbn [appstore.rows]. apply inventory_others.
  - intros s Hin. rewrite HS in Hin.
    destruct Hin as [<-|Hin].
    + exists 0%nat. split; [lia|]. split.
      * unfold appstore.inventory. cbn [appstore.rows firstn].
        apply inventory_others.
      * unfold appstore.others at 1. cbn [appstore.rows]. apply others_others.
    + apply insertApps_states_prefix in Hin as (j & Hj & ->).
      exists j. split; [exact Hj|].
      cbn [appstore.rows appstore.rejects]. rewrite firstn_map.
      apply (replaced_inventory (apps svc) u
               (firstn j (mdm.InstalledApplicationList req))
               (appstore.rejects (apps svc))).
  - eexists. unfold ackCertificateList_states, ackCertificateList.
    rewrite HGet. split; [reflexivity|].
    cbn [certificate.ReplaceCertificatesByDeviceUUID certstore.datastore].
    fold u.
    destruct (certstore.ReplaceCertificatesByDeviceUUID _ _ _) as [t e] eqn:E.
    cbn [fst certs set_certs].
    pose proof (certstore_replaced (certs svc) u (mdm.CertificateList req)) as H.
    rewrite E in H. exact H.
Qed.

End WithInventories.

Section WithApplicationContract.

Context {C D A T : Type}.
Context `{CS : command.Service C} `{DS : device.Datastore D}.
Context `{AS : application.Datastore A} `{TS : certificate.Datastore T}.

Variable json_Marshal : mdm.QueryResponses -> list Byte.byte * option error.
Variable now : Z.

Variable stored : A -> list application.DeviceApplication.
Hypothesis contract : application_contract stored.

Implicit Types (svc : service C D A T) (req : mdm.Response).

Lemma filter_kept_of_removed u (l : list application.DeviceApplication) :
  filter (fun r => (application.DeviceUUID r =? u)%string)
         (filter (fun r => negb (application.DeviceUUID r =? u)%string) l) = [].
Proof.
  induction l as [|r l IH]; [reflexivity|].
  cbn. destruct (application.DeviceUUID r =? u)%string eqn:E; cbn; [exact IH|].
  rewrite E. exact IH.
Qed.

Lemma filter_removed_twice u (l : list application.DeviceApplication) :
  filter (fun r => negb (application.DeviceUUID r =? u)%string)
         (filter (fun r => negb (application.DeviceUUID r =? u)%string) l)
  = filter (fun r => negb (application.DeviceUUID r =? u)%string) l.
Proof.
  induction l as [|r l IH]; [reflexivity|].
  cbn. destruct (application.DeviceUUID r =? u)%string eqn:E; cbn; [exact IH|].
  rewrite E. cbn. f_equal. exact IH.
Qed.

(** A loop that ends without error has stored one row per entry, in
    order, after the rows it started from. *)
Lemma insertApps_stored l : forall (a a' : A) u,
  insertApps a u l = (a', None) ->
  stored a' = (stored a ++ map (newApp u) l)%list.
Proof.
  induction l as [|it l IH]; intros a a' u H.
  - cbn in H. inversion H; subst. cbn. symmetry. apply app_nil_r.
  - cbn [insertApps] in H.
    destruct (application.NewDeviceApp a (newApp u it)) as [a1 [e|]] eqn:HN;
      [inversion H|].
    rewrite (IH a1 a' u H), (inserted stored contract a _ a1 HN).
    cbn [map]. rewrite <- app_assoc. reflexivity.
Qed.

(** The loop over a list goes on from where the loop over a prefix ended
    without error. *)
Lemma insertApps_app l1 : forall (a a1 : A) u l2,
  insertApps a u l1 = (a1, None) ->
  insertApps a u (l1 ++ l2) = insertApps a1 u l2.
Proof.
  induction l1 as [|it l1 IH]; intros a a1 u l2 H.
  - cbn in H. inversion H; subst. reflexivity.
  - cbn [insertApps app] in *.
    destruct (application.NewDeviceApp a (newApp u it)) as [a0 [e|]];
      [inversion H|].
    apply IH. exact H.
Qed.

(** C10: for any Application Inventory that keeps its contract: when the
    request type is InstalledApplicationList, the device is found, the
    delete succeeds, the inserts of the entries before position [i]
    succeed and the insert of entry [i] fails with [e], [Acknowledge]
    returns the error "inserting an application for device: e" with the
    count 0.  The store is left as that failed insert left it: the rows of
    the device are exactly one row per entry among the first [i], in
    order, each with the name, the three strings (absent when empty) and
    the two sizes of its entry; the rows of the other devices are kept;
    and the Command Store is unchanged, so the command is still queued. *)
Theorem C10_insert_failure_leaves_prefix svc req p ferr dev a0 i it ai a' e :
  let u := device.UUID dev in
  let row := fun reqApp : mdm.InstalledApplicationListItem =>
    application.mkDeviceApplication
      u (mdm.App_Name reqApp)
      (sql.mkNullString (mdm.App_Identifier reqApp)
                        (negb (mdm.App_Identifier reqApp =? "")%string))
      (sql.mkNullString (mdm.App_ShortVersion reqApp)
                        (negb (mdm.App_ShortVersion reqApp =? "")%string))
      (sql.mkNullString (mdm.App_Version reqApp)
                        (negb (mdm.App_Version reqApp =? "")%string))
      (sql.mkNullInt64 (mdm.App_BundleSize reqApp) true)
      (sql.mkNullInt64 (mdm.App_DynamicSize reqApp) true) in
  command.Find (commands svc) (mdm.CommandUUID req) = (p, ferr) ->
  mdm.RequestType (mdm.Payload_Command p) = "InstalledApplicationList" ->
  device.GetDeviceByUDID (devices svc) (mdm.UDID req) ["device_uuid"] = (dev, None) ->
  application.DeleteDeviceApplications (apps svc) u = (a0, None) ->
  nth_error (mdm.InstalledApplicationList req) i = Some it ->
  insertApps a0 u (firstn i (mdm.InstalledApplicationList req)) = (ai, None) ->
  application.NewDeviceApp ai (row it) = (a', Some e) ->
  let r := Acknowledge json_Marshal now svc req in
  snd r = (0, Some ("inserting an application for device: " ++ e)) /\
  apps (fst r) = a' /\
  filter (fun x => (application.DeviceUUID x =? u)%string) (stored a')
    = map row (firstn i (mdm.InstalledApplicationList req)) /\
  filter (fun x => negb (application.DeviceUUID x =? u)%string) (stored a')
    = filter (fun x => negb (application.DeviceUUID x =? u)%string)
             (stored (apps svc)) /\
  commands (fst r) = commands svc.
Proof.
  intros u row HF HT HGet HDelete Hnth Hloop Hfail r.
  destruct (nth_error_split _ _ Hnth) as (l1 & l2 & HL & Hlen).
  assert (Hfirst : firstn i (mdm.InstalledApplicationList req) = l1).
  { rewrite HL, <- Hlen, firstn_app, firstn_all, Nat.sub_diag. cbn.
    apply app_nil_r. }
  rewrite Hfirst in *.
  assert (Hfail' : application.NewDeviceApp ai (newApp u it) = (a', Some e))
    by exact Hfail.
  assert (HR : ackInstalledApplicationList svc req
               = (set_apps svc a',
                  Some ("inserting an application for device: " ++ e))).
  { unfold ackInstalledApplicationList. rewrite HGet. fold u. rewrite HDelete, HL.
    rewrite (insertApps_app l1 a0 ai u (it :: l2) Hloop).
    cbn [insertApps]. rewrite Hfail'. reflexivity. }
  assert (HD : dispatch json_Marshal now
                 (mdm.RequestType (mdm.Payload_Command p)) svc req
               = (set_apps svc a',
                  Some ("inserting an application for device: " ++ e))).
  { rewrite HT. unfold dispatch. cbn. exact HR. }
  subst r. rewrite (Acknowledge_dispatch_error _ _ _ _ _ _ _ _ HF HD).
  cbn [fst snd apps commands set_apps].
  assert (HS : stored a'
               = (filter (fun x => negb (application.DeviceUUID x =? u)%string)
                         (stored (apps svc))
                    ++ map (newApp u) l1)%list).
  { rewrite (not_inserted stored contract ai _ a' e Hfail').
    rewrite (insertApps_stored l1 a0 ai u Hloop).
    rewrite (deleted stored contract (apps svc) u a0 HDelete). reflexivity. }
  split; [reflexivity|]. split; [reflexivity|]. rewrite HS. split; [|split].
  - rewrite filter_app, filter_kept_of_removed, filter_newApp. reflexivity.
  - rewrite filter_app, filter_removed_twice, filter_out_newApp. apply app_nil_r.
  - reflexivity.
Qed.

End WithApplicationContract.

(** * The statements at work on a small fleet *)

Section Fleet.

Import fleet.

(** An orphan DeviceInformation response: the registry is empty. *)
Lemma C2_witness :
  Acknowledge json_Marshal now (world_with (queued p_info) []) ack_info
    = (world_with (queued p_info) [],
       (0, Some "no enrolled device matches the one responding")) /\
  commands (world_with (queued p_info) []) = queued p_info.
Proof.
  apply (C2_reconciliation_error_keeps_command json_Marshal now
           (world_with (queued p_info) []) ack_info p_info None).
  - reflexivity.
  - left. split; reflexivity.
Defined.

Lemma C5_witness :
  Acknowledge json_Marshal now (world_with (queued p_info) []) ack_info
    = (world_with (queued p_info) [],
       (0, Some "no enrolled device matches the one responding")).
Proof.
  apply (C5_orphan_response_rejected json_Marshal now
           (world_with (queued p_info) []) ack_info p_info None);
    reflexivity.
Defined.

(** Two records claim the UDID and serial number of the response. *)
Lemma C6_witness :
  Acknowledge json_Marshal now
    (world_with (queued p_info) [phone; phone_again]) ack_info
    = (world_with (queued p_info) [phone; phone_again],
       (0, Some "expected a single device for udid: UDID-1, serial number: SN-1, but got more than one.")).
Proof.
  apply (C6_ambiguous_response_rejected json_Marshal now
           (world_with (queued p_info) [phone; phone_again]) ack_info
           p_info None [phone; phone_again]);
    [reflexivity | reflexivity | reflexivity | cbn; lia].
Defined.



(** The phone, still awaiting configuration, acknowledges its last
    command. *)
Lemma C3_witness :
  exists c' pl,
    Acknowledge json_Marshal now (world_with (queued p_profiles) [phone])
                (ack "c-prof")
      = (set_commands (world_with (queued p_profiles) [phone]) c', (1, None)) /\
    mdm.RequestType (mdm.Payload_Command pl) = "DeviceConfigured" /\
    commandstore.pending c' = [commandstore.mkEntry "UDID-1" pl] /\
    commandstore.queue c' "UDID-1" = [commandstore.mkEntry "UDID-1" pl].
Proof.
  exact (C3_auto_requeue json_Marshal now
           (world_with (queued p_profiles) [phone]) (ack "c-prof")
           p_profiles None
           (world_with (queued p_profiles) [phone])
           (commandstore.mkDB [] [p_info; p_apps; p_certs; p_profiles] 4)
           phone eq_refl eq_refl eq_refl eq_refl).
Defined.

(** With the same queue and the same flag, [FailCommand] leaves the queue
    empty where [Acknowledge] enqueues DeviceConfigured. *)
Example FailCommand_does_not_requeue :
  let svc := world_with (queued p_profiles) [phone] in
  device.AwaitingConfiguration phone = true /\
  snd (FailCommand svc (ack "c-prof")) = (0, None) /\
  commandstore.pending (commands (fst (FailCommand svc (ack "c-prof")))) = [] /\
  snd (Acknowledge json_Marshal now svc (ack "c-prof")) = (1, None).
Proof. cbn. repeat split. Qed.

(** C7: the device reports one application with nothing but its name.
    The acknowledgment succeeds and the inventory of the device is the
    one row of that application; its three strings are stored as absent,
    but its two sizes are stored as present, with value 0. *)
Theorem C7_absent_size_stored_as_zero :
  let r := Acknowledge json_Marshal now
             (world_with (queued p_apps) [phone_configured]) (ack_apps [notes]) in
  snd r = (0, None) /\
  appstore.inventory (apps (fst r)) "uuid-1"
    = [application.mkDeviceApplication
         "uuid-1" "Notes"
         (sql.mkNullString "" false) (sql.mkNullString "" false)
         (sql.mkNullString "" false)
         (sql.mkNullInt64 0 true) (sql.mkNullInt64 0 true)].
Proof. cbn. split; reflexivity. Qed.

(** The phone is no longer in the registry when it acknowledges its last
    command: the call fails, and the command is gone from the queue. *)
Lemma C8_counterexample :
  let svc := world_with (queued p_profiles) [] in
  let r := Acknowledge json_Marshal now svc (ack "c-prof") in
  snd r = (0, Some "check and requeue: device not found") /\
  commandstore.queue (commands svc) "UDID-1"
    = [commandstore.mkEntry "UDID-1" p_profiles] /\
  commandstore.queue (commands (fst r)) "UDID-1" = [].
Proof. cbn. repeat split. Qed.

Lemma C8_witness :
  let svc := world_with (queued p_profiles) [] in
  let gone := commandstore.mkDB [] [p_info; p_apps; p_certs; p_profiles] 4 in
  let e := "check and requeue: device not found" in
  (dispatch json_Marshal now ("ProfileList") svc (ack "c-prof")
     = (set_commands svc gone, Some e) /\
   0 = 0 /\ commands (set_commands svc gone) = commands svc)
  \/
  (exists svc1 c,
     dispatch json_Marshal now ("ProfileList") svc (ack "c-prof") = (svc1, None) /\
     ((command.DeleteCommand (commands svc1) "UDID-1" "c-prof" = (c, (0, Some e)) /\
       set_commands svc gone = set_commands svc1 c)
      \/
      (command.DeleteCommand (commands svc1) "UDID-1" "c-prof" = (c, (0, None)) /\
       checkRequeue (set_commands svc1 c) "UDID-1"
         = (set_commands svc gone, (0, Some e))))).
Proof.
  intros svc gone e.
  exact (C8_failure_stages json_Marshal now svc (ack "c-prof") p_profiles None
           (set_commands svc gone) 0 e eq_refl eq_refl).
Defined.

(** The phone has Mail installed and reports Safari: right after the
    delete the store has no row for it. *)
Lemma C9_counterexample :
  let svc := world_with (queued p_apps) [phone] in
  let req := ack_apps [safari] in
  exists s,
    In s (ackInstalledApplicationList_states svc req) /\
    appstore.inventory (apps svc) "uuid-1" = [mail] /\
    appstore.inventory (apps (fst (ackInstalledApplicationList svc req))) "uuid-1"
      = [newApp "uuid-1" safari] /\
    appstore.inventory s "uuid-1" = [].
Proof.
  cbn. eexists. split; [left; reflexivity|]. repeat split.
Qed.

Lemma C9_witness :
  let svc := world_with (queued p_apps) [phone] in
  let req := mdm.mkResponse "UDID-1" "c-apps" no_answers [safari; notes]
               [mdm.mkCertificateListItem "Ada" true []] in
  (exists s0 rest,
     ackInstalledApplicationList_states svc req = s0 :: rest /\
     appstore.inventory s0 "uuid-1" = []) /\
  (forall s, In s (ackInstalledApplicationList_states svc req) ->
     exists j, (j <= 2)%nat /\
       appstore.inventory s "uuid-1"
         = firstn j [newApp "uuid-1" safari; newApp "uuid-1" notes] /\
       appstore.others s "uuid-1" = [maps_elsewhere]) /\
  (exists t,
     ackCertificateList_states svc req = [t] /\
     certstore.inventory t "uuid-1"
       = [certificate.mkCertificate "Ada" true [] "uuid-1"]).
Proof.
  intros svc req.
  exact (C9_states_seen_during_replace svc req phone eq_refl).
Defined.

Lemma uniquestore_contract :
  application_contract (A := uniquestore.DB) (fun db => db).
Proof.
  constructor.
  - intros a u a' H. inversion H. reflexivity.
  - intros a r a' H. cbn in H. unfold uniquestore.NewDeviceApp in H.
    destruct (uniquestore.holds a r); inversion H. reflexivity.
  - intros a r a' e H. cbn in H. unfold uniquestore.NewDeviceApp in H.
    destruct (uniquestore.holds a r); inversion H. reflexivity.
Qed.

(** The phone reports Safari twice, then Notes, to an inventory that
    holds one row per device and name: the second Safari is refused. *)
Lemma C10_witness :
  let svc : service commandstore.DB devicestore.DB uniquestore.DB certstore.DB :=
    mkService (queued p_apps) [phone] [mail; maps_elsewhere] [] in
  let r := Acknowledge json_Marshal now svc
             (ack_apps [safari; safari; notes]) in
  snd r = (0, Some "inserting an application for device: duplicate application") /\
  apps (fst r) = [maps_elsewhere; newApp "uuid-1" safari] /\
  filter (fun x => (application.DeviceUUID x =? "uuid-1")%string) (apps (fst r))
    = [application.mkDeviceApplication
         "uuid-1" "Safari"
         (sql.mkNullString "com.apple.safari" true)
         (sql.mkNullString "10" true) (sql.mkNullString "602.1" true)
         (sql.mkNullInt64 5 true) (sql.mkNullInt64 6 true)] /\
  filter (fun x => negb (application.DeviceUUID x =? "uuid-1")%string)
         (apps (fst r))
    = [maps_elsewhere] /\
  commands (fst r) = queued p_apps.
Proof.
  intros svc r.
  assert (HF : command.Find (commands svc)
                 (mdm.CommandUUID (ack_apps [safari; safari; notes]))
               = (p_apps, None)) by reflexivity.
  assert (HG : device.GetDeviceByUDID (devices svc)
                 (mdm.UDID (ack_apps [safari; safari; notes])) ["device_uuid"]
               = (phone, None)) by reflexivity.
  assert (HDel : application.DeleteDeviceApplications (apps svc) (device.UUID phone)
                 = ([maps_elsewhere], None)) by reflexivity.
  assert (HL : insertApps (A := uniquestore.DB) [maps_elsewhere] (device.UUID phone)
                 (firstn 1 (mdm.InstalledApplicationList
                              (ack_apps [safari; safari; notes])))
               = ([maps_elsewhere; newApp "uuid-1" safari], None)) by reflexivity.
  assert (HN : application.NewDeviceApp (A := uniquestore.DB)
                 [maps_elsewhere; newApp "uuid-1" safari]
                 (newApp "uuid-1" safari)
               = ([maps_elsewhere; newApp "uuid-1" safari],
                  Some "duplicate application")) by reflexivity.
  destruct (C10_insert_failure_leaves_prefix json_Marshal now
              (fun db : uniquestore.DB => db) uniquestore_contract
              svc (ack_apps [safari; safari; notes]) p_apps None phone
              [maps_elsewhere] 1%nat safari
              [maps_elsewhere; newApp "uuid-1" safari]
              [maps_elsewhere; newApp "uuid-1" safari]
              "duplicate application"
              HF eq_refl HG HDel eq_refl HL HN)
    as (H1 & H2 & H3 & H4 & H5).
  fold r in H1, H2, H5. rewrite H2 in *.
  repeat split; assumption.
Defined.

End Fleet.

(** * Further properties of the dispatcher, for any implementation of the stores *)

Section MoreDispatcher.

Context {C D A T : Type}.
Context `{CS : command.Service C} `{DS : device.Datastore D}.
Context `{AS : application.Datastore A} `{TS : certificate.Datastore T}.

Variable json_Marshal : mdm.QueryResponses -> list Byte.byte * option error.
Variable now : Z.

Implicit Types (svc : service C D A T) (req : mdm.Response).

(** X1: Each reconciliation routine writes at most the store it is about:
    [ackQueryResponses] the registry, [ackInstalledApplicationList] the
    Application Inventory, [ackCertificateList] the Certificate Inventory;
    none of them writes the Command Store. *)
Theorem routines_write_their_own_store svc req :
  (apps (fst (ackQueryResponses json_Marshal now svc req)) = apps svc /\
   certs (fst (ackQueryResponses json_Marshal now svc req)) = certs svc /\
   commands (fst (ackQueryResponses json_Marshal now svc req)) = commands svc) /\
  (devices (fst (ackInstalledApplicationList svc req)) = devices svc /\
   certs (fst (ackInstalledApplicationList svc req)) = certs svc /\
   commands (fst (ackInstalledApplicationList svc req)) = commands svc) /\
  (devices (fst (ackCertificateList svc req)) = devices svc /\
   apps (fst (ackCertificateList svc req)) = apps svc /\
   commands (fst (ackCertificateList svc req)) = commands svc).
Proof.
  split; [|split].
  - unfold ackQueryResponses.
    destruct (device.Devices _ _) as [ds [e|]]; [cbn; auto|].
    destruct ds as [|d [|d' ds]]; [cbn; auto| |cbn; auto].
    destruct (json_Marshal _) as [blob [e|]]; [cbn; auto|].
    destruct (device.Save _ _ _) as [d1 e1]; cbn; auto.
  - unfold ackInstalledApplicationList.
    destruct (device.GetDeviceByUDID _ _ _) as [dev [e|]]; [cbn; auto|].
    destruct (application.DeleteDeviceApplications _ _) as [a [e|]]; [cbn; auto|].
    destruct (insertApps _ _ _) as [a' e']; cbn; auto.
  - unfold ackCertificateList.
    destruct (device.GetDeviceByUDID _ _ _) as [dev [e|]]; [cbn; auto|].
    destruct (certificate.ReplaceCertificatesByDeviceUUID _ _ _) as [t e];
      cbn; auto.
Qed.

(** After the reconciliation stage, [Acknowledge] writes the Command Store
    only. *)
Lemma Acknowledge_stores_after_dispatch svc req p ferr svc1 err :
  command.Find (commands svc) (mdm.CommandUUID req) = (p, ferr) ->
  dispatch json_Marshal now (mdm.RequestType (mdm.Payload_Command p)) svc req
    = (svc1, err) ->
  devices (fst (Acknowledge json_Marshal now svc req)) = devices svc1 /\
  apps (fst (Acknowledge json_Marshal now svc req)) = apps svc1 /\
  certs (fst (Acknowledge json_Marshal now svc req)) = certs svc1.
Proof.
  intros HF HD. destruct err as [e|].
  - rewrite (Acknowledge_dispatch_error _ _ _ _ _ _ _ _ HF HD). cbn. auto.
  - rewrite (Acknowledge_after_dispatch _ _ _ _ _ _ _ HF HD).
    destruct (command.DeleteCommand _ _ _) as [c [total [e|]]]; [cbn; auto|].
    destruct (total =? 0); [|cbn; auto].
    pose proof (checkRequeue_frame (set_commands svc1 c) (mdm.UDID req)) as HFr.
    cbn zeta in HFr. destruct HFr as (H1 & H2 & H3).
    rewrite H1, H2, H3. cbn. auto.
Qed.

(** X2: A response to a command of any other request type (ProfileList,
    DeviceConfigured, ...) is accepted without touching the registry or
    the inventories, whether the call then succeeds or not. *)
Theorem Acknowledge_other_types_reconcile_nothing svc req p ferr :
  command.Find (commands svc) (mdm.CommandUUID req) = (p, ferr) ->
  reconciled (mdm.RequestType (mdm.Payload_Command p)) = false ->
  devices (fst (Acknowledge json_Marshal now svc req)) = devices svc /\
  apps (fst (Acknowledge json_Marshal now svc req)) = apps svc /\
  certs (fst (Acknowledge json_Marshal now svc req)) = certs svc.
Proof.
  intros HF HR.
  apply (Acknowledge_stores_after_dispatch svc req p ferr svc None HF).
  apply dispatch_default. exact HR.
Qed.

(** X3: An inventory response (applications or certificates) from a device the
    registry cannot find by UDID is rejected with the lookup error,
    prefixed by "getting a device record by udid: "; nothing is deleted,
    nothing is replaced and the command stays queued. *)
Theorem inventory_response_needs_the_device svc req p ferr d e :
  command.Find (commands svc) (mdm.CommandUUID req) = (p, ferr) ->
  mdm.RequestType (mdm.Payload_Command p) = "InstalledApplicationList" \/
  mdm.RequestType (mdm.Payload_Command p) = "CertificateList" ->
  device.GetDeviceByUDID (devices svc) (mdm.UDID req) ["device_uuid"] = (d, Some e) ->
  Acknowledge json_Marshal now svc req
    = (svc, (0, Some ("getting a device record by udid: " ++ e))).
Proof.
  intros HF HT HGet.
  eapply Acknowledge_dispatch_error; [eassumption|].
  destruct HT as [-> | ->]; unfold dispatch; cbn.
  - unfold ackInstalledApplicationList. rewrite HGet. reflexivity.
  - unfold ackCertificateList. rewrite HGet. reflexivity.
Qed.

(** X4: While the removal reports that commands remain, the auto-requeue rule
    is not evaluated: the count of the removal is returned and the Command
    Store is left as the removal left it, whatever the flag of the
    device. *)
Theorem Acknowledge_with_commands_remaining svc req p ferr svc1 c total :
  command.Find (commands svc) (mdm.CommandUUID req) = (p, ferr) ->
  dispatch json_Marshal now (mdm.RequestType (mdm.Payload_Command p)) svc req
    = (svc1, None) ->
  command.DeleteCommand (commands svc1) (mdm.UDID req) (mdm.CommandUUID req)
    = (c, (total, None)) ->
  total <> 0 ->
  Acknowledge json_Marshal now svc req = (set_commands svc1 c, (total, None)).
Proof.
  intros HF HD HDel Hn.
  rewrite (Acknowledge_after_dispatch _ _ _ _ _ _ _ HF HD), HDel.
  apply Z.eqb_neq in Hn. rewrite Hn. reflexivity.
Qed.

(** X5: [checkRequeue] returns 1 exactly when the device is found with
    its flag set and the DeviceConfigured command for that UDID is
    created; it then returns no error and the service with the Command
    Store that creation left.  In every other case it returns 0, and the
    service is unchanged unless the creation was attempted and failed:
    the error of the creation is then returned as it is, with the store
    it left. *)
Theorem checkRequeue_outcomes svc udid :
  let found :=
    device.GetDeviceByUDID (devices svc) udid ["awaiting_configuration"] in
  let created :=
    command.NewCommand (commands svc)
                       (mdm.mkCommandRequest udid "DeviceConfigured") in
  let r := checkRequeue svc udid in
  (fst (snd r) = 1 <->
   snd found = None /\ device.AwaitingConfiguration (fst found) = true /\
   snd (snd created) = None) /\
  (fst (snd r) = 1 -> r = (set_commands svc (fst created), (1, None))) /\
  (fst (snd r) <> 1 ->
   fst (snd r) = 0 /\
   (fst r = svc \/
    (snd found = None /\ device.AwaitingConfiguration (fst found) = true /\
     snd (snd created) <> None /\
     r = (set_commands svc (fst created), (0, snd (snd created)))))).
Proof.
  intros found created r. subst found created r. unfold checkRequeue.
  destruct (device.GetDeviceByUDID _ _ _) as [d [e|]]; cbn [fst snd].
  - split; [split; [discriminate|intros [H _]; discriminate]|].
    split; [discriminate|]. intros _. auto.
  - destruct (device.AwaitingConfiguration d).
    + destruct (command.NewCommand _ _) as [c [p [e|]]]; cbn [fst snd].
      * split; [split; [discriminate|intros (_ & _ & H); discriminate]|].
        split; [discriminate|]. intros _. split; [reflexivity|]. right.
        repeat split; discriminate.
      * split; [split; auto|]. split; [reflexivity|].
        intros H. exfalso. apply H. reflexivity.
    + cbn [fst snd].
      split; [split; [discriminate|intros (_ & H & _); discriminate]|].
      split; [discriminate|]. intros _. auto.
Qed.

(** X6: A successful [Acknowledge] returns 0 only for a device that the
    registry finds with its [AwaitingConfiguration] flag clear. *)
Theorem Acknowledge_zero_means_configured svc req svc' :
  Acknowledge json_Marshal now svc req = (svc', (0, None)) ->
  exists d,
    device.GetDeviceByUDID (devices svc') (mdm.UDID req) ["awaiting_configuration"]
      = (d, None) /\
    device.AwaitingConfiguration d = false.
Proof.
  intros HA.
  destruct (command.Find (commands svc) (mdm.CommandUUID req)) as [p ferr] eqn:HF.
  destruct (dispatch json_Marshal now
              (mdm.RequestType (mdm.Payload_Command p)) svc req)
    as [svc1 [e|]] eqn:HD.
  - rewrite (Acknowledge_dispatch_error _ _ _ _ _ _ _ _ HF HD) in HA.
    inversion HA.
  - rewrite (Acknowledge_after_dispatch _ _ _ _ _ _ _ HF HD) in HA.
    destruct (command.DeleteCommand _ _ _) as [c [total [e|]]]; [inversion HA|].
    destruct (total =? 0) eqn:Hz.
    + unfold checkRequeue in HA. cbn [devices set_commands] in HA.
      destruct (device.GetDeviceByUDID (devices svc1) _ _) as [d [e|]] eqn:HGet;
        [inversion HA|].
      destruct (device.AwaitingConfiguration d) eqn:HFlag.
      * destruct (command.NewCommand _ _) as [c' [p' [e|]]]; inversion HA.
      * inversion HA; subst. exists d. cbn. auto.
    + inversion HA; subst. discriminate.
Qed.

Lemma checkRequeue_error_count svc udid svc' n e :
  checkRequeue svc udid = (svc', (n, Some e)) -> n = 0.
Proof.
  unfold checkRequeue.
  destruct (device.GetDeviceByUDID _ _ _) as [d [e0|]];
    [intros H; inversion H; reflexivity|].
  destruct (device.AwaitingConfiguration d); [|intros H; inversion H].
  destruct (command.NewCommand _ _) as [c [p [e0|]]]; intros H; inversion H.
  reflexivity.
Qed.

(** X7: A failing [Acknowledge] returns the count 0, unless it is the removal
    itself that failed: the count is then the one the removal returned
    with its error. *)
Theorem Acknowledge_error_counts svc req p ferr svc' n e :
  command.Find (commands svc) (mdm.CommandUUID req) = (p, ferr) ->
  Acknowledge json_Marshal now svc req = (svc', (n, Some e)) ->
  n = 0 \/
  exists svc1 c,
    dispatch json_Marshal now (mdm.RequestType (mdm.Payload_Command p)) svc req
      = (svc1, None) /\
    command.DeleteCommand (commands svc1) (mdm.UDID req) (mdm.CommandUUID req)
      = (c, (n, Some e)) /\
    svc' = set_commands svc1 c.
Proof.
  intros HF HA.
  destruct (dispatch json_Marshal now
              (mdm.RequestType (mdm.Payload_Command p)) svc req)
    as [svc1 [e1|]] eqn:HD.
  - rewrite (Acknowledge_dispatch_error _ _ _ _ _ _ _ _ HF HD) in HA.
    inversion HA; subst. left. reflexivity.
  - rewrite (Acknowledge_after_dispatch _ _ _ _ _ _ _ HF HD) in HA.
    destruct (command.DeleteCommand _ _ _) as [c [total [e1|]]] eqn:HDel.
    + inversion HA; subst. right. exists svc1, c. auto.
    + destruct (total =? 0); [|inversion HA].
      left. exact (checkRequeue_error_count _ _ _ _ _ HA).
Qed.

(** X8: For a command whose request type has no routine, [Acknowledge] and
    [FailCommand] do the same thing unless the removal succeeds and empties
    the queue: the two differ by the auto-requeue rule only. *)
Theorem Acknowledge_agrees_with_FailCommand svc req p ferr c total err :
  command.Find (commands svc) (mdm.CommandUUID req) = (p, ferr) ->
  reconciled (mdm.RequestType (mdm.Payload_Command p)) = false ->
  command.DeleteCommand (commands svc) (mdm.UDID req) (mdm.CommandUUID req)
    = (c, (total, err)) ->
  err <> None \/ total <> 0 ->
  Acknowledge json_Marshal now svc req = FailCommand svc req.
Proof.
  intros HF HR HDel Hor.
  rewrite (Acknowledge_after_dispatch _ _ _ _ _ _ _ HF
             (dispatch_default json_Marshal now _ svc req HR)).
  unfold FailCommand. rewrite HDel.
  destruct err as [e|]; [reflexivity|].
  destruct Hor as [H|H]; [contradiction|].
  apply Z.eqb_neq in H. rewrite H. reflexivity.
Qed.

(** X9: [ackQueryResponses] changes the service in one way only: by the [Save]
    of the single matched record, issued after the answers were
    serialised.  The saved record keeps the internal identifier, the UDID
    and the [AwaitingConfiguration] flag of the matched one, carries the
    reported serial number as present, and has [now] as its last
    check-in. *)
Theorem ackQueryResponses_saves_once svc req svc' err :
  ackQueryResponses json_Marshal now svc req = (svc', err) ->
  svc' = svc \/
  exists existing blob saved d,
    device.Devices (devices svc)
      [device.SerialNumber (mdm.QR_SerialNumber (mdm.QueryResponses_ req));
       device.ByUDID (mdm.UDID req)] = ([existing], None) /\
    json_Marshal (mdm.QueryResponses_ req) = (blob, None) /\
    device.Save (devices svc) "queryResponses" saved = (d, err) /\
    svc' = set_devices svc d /\
    device.UUID saved = device.UUID existing /\
    device.UDID saved = device.UDID existing /\
    device.AwaitingConfiguration saved = device.AwaitingConfiguration existing /\
    device.SerialNumber_ saved
      = sql.mkNullString (mdm.QR_SerialNumber (mdm.QueryResponses_ req)) true /\
    device.LastCheckin saved = now /\
    device.LastQueryResponse saved = blob.
Proof.
  unfold ackQueryResponses.
  destruct (device.Devices _ _) as [ds [e|]] eqn:HDev;
    [intros H; inversion H; auto|].
  destruct ds as [|existing [|d' ds]];
    [intros H; inversion H; auto| |intros H; inversion H; auto].
  destruct (json_Marshal _) as [blob [e|]] eqn:HM;
    [intros H; inversion H; auto|].
  destruct (device.Save _ _ _) as [d1 e1] eqn:HS.
  intros H; inversion H; subst. right.
  eexists existing, blob, _, d1.
  split; [reflexivity|]. split; [reflexivity|]. split; [exact HS|].
  cbn. repeat split.
Qed.

End MoreDispatcher.

(** * Further properties that depend on a store *)

Section SnapshotReplace.

Context {C D T : Type}.
Context `{CS : command.Service C} `{DS : device.Datastore D}.
Context `{TS : certificate.Datastore T}.

Variable json_Marshal : mdm.QueryResponses -> list Byte.byte * option error.
Variable now : Z.

Implicit Types (svc : service C D appstore.DB T) (req : mdm.Response).

(** X10: Acknowledging an InstalledApplicationList response of a device the
    registry finds, every row of which the store accepts, leaves the
    device with exactly the rows built from the reported list, in the
    order reported, and keeps the rows of every other device, whatever
    the removal and the auto-requeue rule do afterwards. *)
Theorem Acknowledge_replaces_the_application_snapshot svc req p ferr dev :
  command.Find (commands svc) (mdm.CommandUUID req) = (p, ferr) ->
  mdm.RequestType (mdm.Payload_Command p) = "InstalledApplicationList" ->
  device.GetDeviceByUDID (devices svc) (mdm.UDID req) ["device_uuid"] = (dev, None) ->
  (forall it, In it (mdm.InstalledApplicationList req) ->
     appstore.rejects (apps svc) (newApp (device.UUID dev) it) = None) ->
  appstore.inventory (apps (fst (Acknowledge json_Marshal now svc req)))
                     (device.UUID dev)
    = map (newApp (device.UUID dev)) (mdm.InstalledApplicationList req) /\
  appstore.others (apps (fst (Acknowledge json_Marshal now svc req)))
                  (device.UUID dev)
    = appstore.others (apps svc) (device.UUID dev).
Proof.
  intros HF HT HGet Hacc.
  destruct (ackInstalledApplicationList svc req) as [svc1 err] eqn:HR.
  assert (HD : dispatch json_Marshal now
                 (mdm.RequestType (mdm.Payload_Command p)) svc req = (svc1, err)).
  { rewrite HT. unfold dispatch. cbn. exact HR. }
  destruct (Acknowledge_stores_after_dispatch json_Marshal now
              svc req p ferr svc1 err HF HD) as (_ & -> & _).
  destruct (ackInstalledApplicationList_snapshot svc req dev HGet Hacc)
    as (_ & H1 & H2).
  rewrite HR in H1, H2. cbn [fst] in H1, H2. auto.
Qed.

End SnapshotReplace.

Section RegistryRoundTrip.

Context {C A T : Type}.
Context `{CS : command.Service C}.
Context `{AS : application.Datastore A} `{TS : certificate.Datastore T}.

Variable json_Marshal : mdm.QueryResponses -> list Byte.byte * option error.
Variable now : Z.

Implicit Types (svc : service C devicestore.DB A T) (req : mdm.Response).

(** A lookup by UDID that found a record finds, after that record was
    saved again under the same identifiers, the saved record. *)
Lemma find_after_Save (db : devicestore.DB) udid existing saved :
  find (fun d => (device.UDID d =? udid)%string) db = Some existing ->
  device.UUID saved = device.UUID existing ->
  device.UDID saved = device.UDID existing ->
  find (fun d => (device.UDID d =? udid)%string)
       (fst (devicestore.Save db "queryResponses" saved)) = Some saved.
Proof.
  intros HFind HUUID HUDID. cbn [fst devicestore.Save].
  assert (Hs : (device.UDID saved =? udid)%string = true).
  { apply find_some in HFind as [_ H]. rewrite HUDID. exact H. }
  induction db as [|d db IH]; [discriminate|].
  cbn in HFind. cbn [map find].
  destruct (device.UDID d =? udid)%string eqn:E.
  - inversion HFind; subst d.
    rewrite HUUID, String.eqb_refl, Hs. reflexivity.
  - destruct (device.UUID d =? device.UUID saved)%string.
    + rewrite Hs. reflexivity.
    + rewrite E. apply IH. exact HFind.
Qed.

(** X11: After a DeviceInformation response was acknowledged for the one
    record that matches it, a lookup of the device by UDID that found that
    record before now finds it with the reported attributes, with [now] as
    last check-in, and with the internal identifier and the
    [AwaitingConfiguration] flag it had. *)
Theorem Acknowledge_DeviceInformation_is_read_back
        svc req p ferr existing blob fields :
  command.Find (commands svc) (mdm.CommandUUID req) = (p, ferr) ->
  mdm.RequestType (mdm.Payload_Command p) = "DeviceInformation" ->
  device.Devices (devices svc)
    [device.SerialNumber (mdm.QR_SerialNumber (mdm.QueryResponses_ req));
     device.ByUDID (mdm.UDID req)] = ([existing], None) ->
  json_Marshal (mdm.QueryResponses_ req) = (blob, None) ->
  device.GetDeviceByUDID (devices svc) (mdm.UDID req) fields = (existing, None) ->
  let qr := mdm.QueryResponses_ req in
  device.GetDeviceByUDID (devices (fst (Acknowledge json_Marshal now svc req)))
                         (mdm.UDID req) fields
  = (device.mkDevice
       (device.UUID existing) (device.UDID existing)
       (sql.mkNullString (mdm.QR_SerialNumber qr) true)
       (mdm.QR_ProductName qr) (mdm.QR_BuildVersion qr) (mdm.QR_DeviceName qr)
       (mdm.QR_IMEI qr) (mdm.QR_MEID qr) (mdm.QR_Model qr) (mdm.QR_OSVersion qr)
       now blob (device.AwaitingConfiguration existing),
     None).
Proof.
  intros HF HT HDev HM HGet qr.
  set (saved := device.mkDevice
       (device.UUID existing) (device.UDID existing)
       (sql.mkNullString (mdm.QR_SerialNumber qr) true)
       (mdm.QR_ProductName qr) (mdm.QR_BuildVersion qr) (mdm.QR_DeviceName qr)
       (mdm.QR_IMEI qr) (mdm.QR_MEID qr) (mdm.QR_Model qr) (mdm.QR_OSVersion qr)
       now blob (device.AwaitingConfiguration existing)).
  assert (HR : ackQueryResponses json_Marshal now svc req
               = (set_devices svc
                    (fst (devicestore.Save (devices svc) "queryResponses" saved)),
                  None)).
  { unfold ackQueryResponses. cbn zeta. rewrite HDev, HM. reflexivity. }
  assert (HD : dispatch json_Marshal now
                 (mdm.RequestType (mdm.Payload_Command p)) svc req
               = (set_devices svc
                    (fst (devicestore.Save (devices svc) "queryResponses" saved)),
                  None)).
  { rewrite HT. unfold dispatch. cbn [String.eqb Ascii.eqb Bool.eqb]. exact HR. }
  destruct (Acknowledge_stores_after_dispatch json_Marshal now
              svc req p ferr _ _ HF HD) as (-> & _).
  cbn [devices set_devices].
  cbn [device.GetDeviceByUDID devicestore.datastore] in *.
  unfold devicestore.GetDeviceByUDID in *.
  destruct (find _ (devices svc)) as [d0|] eqn:HFind; [|inversion HGet].
  inversion HGet; subst d0.
  rewrite (find_after_Save (devices svc) (mdm.UDID req) existing saved HFind
             eq_refl eq_refl).
  reflexivity.
Qed.

End RegistryRoundTrip.

(** * package main: the helpers of the start-up code *)

Section Startup.

Import main.

Lemma checkEmptyArgs_In (args : list string) :
  checkEmptyArgs args = true <-> In "" args.
Proof.
  induction args as [|arg args IH]; cbn.
  - split; [discriminate|tauto].
  - destruct (String.eqb_spec arg "") as [->|Hne].
    + split; auto.
    + rewrite IH. split; [auto|]. intros [H|H]; [congruence|exact H].
Qed.

(** X12: [checkEmptyArgs] answers true exactly when one of the arguments is the
    empty string, wherever it stands; in particular it answers false when
    given no argument. *)
Theorem checkEmptyArgs_finds_an_empty_argument (args : list string) :
  (checkEmptyArgs args = true <-> In "" args) /\
  (checkEmptyArgs args = false <-> Forall (fun arg => arg <> "") args).
Proof.
  split; [apply checkEmptyArgs_In|].
  rewrite Forall_forall. split.
  - intros H arg Hin ->. apply checkEmptyArgs_In in Hin. congruence.
  - intros H. destruct (checkEmptyArgs args) eqn:E; [|reflexivity].
    apply checkEmptyArgs_In in E. exfalso. exact (H "" E eq_refl).
Qed.

(** X13: [checkTLSFlags] accepts a key and a certificate exactly when
    [checkEmptyArgs] finds no empty string among the two. *)
Theorem checkTLSFlags_agrees_with_checkEmptyArgs (key cert : string) :
  checkTLSFlags key cert = None <-> checkEmptyArgs [key; cert] = false.
Proof.
  unfold checkTLSFlags. cbn.
  destruct (key =? "")%string, (cert =? "")%string; cbn;
    split; intros H; try reflexivity; discriminate.
Qed.

(** X14: [envString] gives the variable when it is set to something and the
    default otherwise, so its answer is empty only when the variable is
    unset or empty and the default is empty too. *)
Theorem envString_is_empty_only_without_default (env : Env) (key def : string) :
  (env key <> "" -> envString env key def = env key) /\
  (env key = "" -> envString env key def = def) /\
  (envString env key def = "" <-> env key = "" /\ def = "").
Proof.
  unfold envString.
  destruct (String.eqb_spec (env key) "") as [E|E]; cbn.
  - rewrite E. split; [congruence|]. split; [reflexivity|]. tauto.
  - split; [reflexivity|]. split; [congruence|]. tauto.
Qed.

(** X15: The connection string of [getPGConnFromENV] has its five fields in
    the order user, password, dbname, sslmode, host.  A variable that is
    set is used as it is; none of the first four fields is ever empty; the
    database name of an environment that gives none is the user name in
    effect; and one record is logged exactly when the SSL mode had to be
    defaulted. *)
Theorem getPGConnFromENV_fills_every_field (env : Env) (logger : Logger) (host : string) :
  exists user password dbname sslmode,
    snd (getPGConnFromENV env logger host)
      = "user=" ++ user ++ " password=" ++ password ++ " dbname=" ++ dbname
        ++ " sslmode=" ++ sslmode ++ " host=" ++ host /\
    (user <> "" /\ password <> "" /\ dbname <> "" /\ sslmode <> "") /\
    (env "POSTGRES_ENV_POSTGRES_USER" <> "" -> user = env "POSTGRES_ENV_POSTGRES_USER") /\
    (env "POSTGRES_ENV_POSTGRES_PASSWORD" <> "" ->
     password = env "POSTGRES_ENV_POSTGRES_PASSWORD") /\
    (env "POSTGRES_ENV_POSTGRES_DB" <> "" -> dbname = env "POSTGRES_ENV_POSTGRES_DB") /\
    (env "POSTGRES_ENV_SSLMODE" <> "" -> sslmode = env "POSTGRES_ENV_SSLMODE") /\
    (env "POSTGRES_ENV_POSTGRES_DB" = "" -> dbname = user) /\
    length (fst (getPGConnFromENV env logger host))
      = (length logger
         + if (env "POSTGRES_ENV_SSLMODE" =? "")%string then 1 else 0)%nat.
Proof.
  unfold getPGConnFromENV.
  destruct (String.eqb_spec (env "POSTGRES_ENV_POSTGRES_USER") "") as [EU|EU];
  destruct (String.eqb_spec (env "POSTGRES_ENV_POSTGRES_DB") "") as [ED|ED];
  destruct (String.eqb_spec (env "POSTGRES_ENV_POSTGRES_PASSWORD") "") as [EP|EP];
  destruct (String.eqb_spec (env "POSTGRES_ENV_SSLMODE") "") as [ES|ES];
  cbn [fst snd];
  eexists _, _, _, _;
  (split; [reflexivity|]);
  (split; [repeat split; solve [discriminate | assumption]|]);
  repeat split;
    try solve [intros; congruence | reflexivity
               | unfold Log; rewrite length_app; reflexivity
               | rewrite Nat.add_0_r; reflexivity].
Qed.

(** X16: Neither connection helper ever answers the empty string, with or
    without its variables. *)
Theorem connection_strings_are_never_empty (env : Env) (logger : Logger) (host : string) :
  snd (getPGConnFromENV env logger host) <> "" /\
  getRedisConnFromENV env host <> "".
Proof.
  split.
  - unfold getPGConnFromENV.
    destruct (env "POSTGRES_ENV_SSLMODE" =? "")%string; cbn; discriminate.
  - unfold getRedisConnFromENV. destruct host; cbn; discriminate.
Qed.

Section DepClientProperties.

Variable Client : Type.
Variable NewClient : Config -> option string -> Client * option error.

(** X17: [depClient] returns a client only when the simulator was asked for or
    all four credentials are given; the client is then the one
    [dep.NewClient] built without error, from the simulator's credentials
    in the first case (those given are ignored) and from the given ones in
    the second, with the server URL as an option exactly when it is not
    empty; nothing is logged. *)
Theorem depClient_returns_a_checked_client
        logger ck cs at_ as_ serverURL depsim logger' client :
  depClient Client NewClient logger ck cs at_ as_ serverURL depsim
    = (logger', Returned client) ->
  logger' = logger /\
  exists config,
    NewClient config (if (serverURL =? "")%string then None else Some serverURL)
      = (client, None) /\
    if depsim then config = depsimDefault
    else config = mkConfig ck cs at_ as_ /\
         ck <> "" /\ cs <> "" /\ at_ <> "" /\ as_ <> "".
Proof.
  unfold depClient. intros H.
  assert (Hdial : forall config,
            (let '(client, err) :=
               if negb (serverURL =? "")%string
               then NewClient config (Some serverURL)
               else NewClient config None in
             match err with
             | Some err => (Log logger ["err"; err], Exited 1)
             | None => (logger, Returned client)
             end) = (logger', Returned client) ->
            logger' = logger /\
            NewClient config (if (serverURL =? "")%string then None
                              else Some serverURL) = (client, None)).
  { intros config. destruct (serverURL =? "")%string; cbn;
      destruct (NewClient config _) as [cl [e|]]; intros H0; inversion H0; auto. }
  destruct depsim.
  - apply Hdial in H as [H1 H2]. split; [exact H1|].
    exists depsimDefault. auto.
  - destruct (checkEmptyArgs [ck; cs; at_; as_]) eqn:HE; [inversion H|].
    apply Hdial in H as [H1 H2]. split; [exact H1|].
    exists (mkConfig ck cs at_ as_). split; [exact H2|]. split; [reflexivity|].
    assert (HN : ~ In "" [ck; cs; at_; as_]).
    { intros HI. apply checkEmptyArgs_In in HI. congruence. }
    cbn in HN. repeat split; intros ->; apply HN; auto.
Qed.

(** X18: Without the simulator, a missing credential ends the run with status
    1 before any client is built, after two records were logged, the
    second of which carries the four credentials as they were given. *)
Theorem depClient_refuses_incomplete_credentials
        logger ck cs at_ as_ serverURL :
  In "" [ck; cs; at_; as_] ->
  depClient Client NewClient logger ck cs at_ as_ serverURL false
    = ((logger ++ [["err"; "must specify DEP server credentials"];
                   ["ConsumerKey"; ck; "ConsumerSecret"; cs;
                    "AccessToken"; at_; "AccessSecret"; as_]])%list,
       Exited 1).
Proof.
  intros HI. apply checkEmptyArgs_In in HI.
  unfold depClient. rewrite HI. unfold Log. rewrite <- app_assoc. reflexivity.
Qed.

(** X19: Whenever [depClient] ends the run, it does so with status 1 and after
    logging at least one record. *)
Theorem depClient_never_exits_silently
        logger ck cs at_ as_ serverURL depsim logger' code :
  depClient Client NewClient logger ck cs at_ as_ serverURL depsim
    = (logger', Exited code) ->
  code = 1 /\ (length logger < length logger')%nat.
Proof.
  unfold depClient, Log. intros H.
  assert (Hdial : forall config,
            (let '(client, err) :=
               if negb (serverURL =? "")%string
               then NewClient config (Some serverURL)
               else NewClient config None in
             match err with
             | Some err => ((logger ++ [["err"; err]])%list, Exited 1)
             | None => (logger, Returned client)
             end) = (logger', Exited code) ->
            code = 1 /\ (length logger < length logger')%nat).
  { intros config. destruct (negb (serverURL =? "")%string);
      destruct (NewClient config _) as [cl [e|]]; intros H0; inversion H0;
        subst; rewrite length_app; cbn; split; (reflexivity || lia). }
  destruct depsim; [exact (Hdial _ H)|].
  destruct (checkEmptyArgs [ck; cs; at_; as_]); [|exact (Hdial _ H)].
  inversion H; subst. rewrite !length_app. cbn. split; [reflexivity|lia].
Qed.

End DepClientProperties.

End Startup.

(** * package main: the wait for the database *)

Section WaitForDatabase.

Import main.

Variable Ping : Z -> option error.

(** What a run of the loop amounts to: [k] failed pings in a row, from
    attempt [a] on, each logged and followed by a sleep of as many seconds
    as the number of the attempt; then either a ping that succeeds or the
    end of the attempts. *)
Lemma pingLoop_runs (r : nat) : forall a dbError logger slept,
  exists k : nat, (k <= r)%nat /\
    length (fst (fst (pingLoop Ping r a dbError (logger, slept))))
      = (length logger + k)%nat /\
    2 * (snd (fst (pingLoop Ping r a dbError (logger, slept))) - slept)
      = Z.of_nat k * (2 * a + Z.of_nat k - 1) /\
    (forall j, a <= j < a + Z.of_nat k -> Ping j <> None) /\
    ((k < r)%nat ->
     Ping (a + Z.of_nat k) = None /\
     snd (pingLoop Ping r a dbError (logger, slept)) = None) /\
    (k = r -> (0 < r)%nat ->
     snd (pingLoop Ping r a dbError (logger, slept)) = Ping (a + Z.of_nat r - 1)).
Proof.
  induction r as [|r IH]; intros a dbError logger slept.
  - exists 0%nat. cbn [pingLoop fst snd].
    split; [lia|]. split; [lia|]. split; [lia|]. split; [intros j Hj; lia|].
    split; intros; lia.
  - cbn [pingLoop]. destruct (Ping a) as [e|] eqn:HP.
    + destruct (IH (a + 1) (Some e)
                   (Log logger ["msg"; "could not connect to postgres: " ++ e])
                   (slept + a))
        as (k & Hk & HL & HS & HF & HLt & HEq).
      cbn [fst snd].
      exists (S k). split; [lia|]. split.
      { rewrite HL. unfold Log. rewrite length_app. cbn. lia. }
      split; [nia|]. split.
      { intros j Hj. destruct (Z.eq_dec j a) as [->|Hne]; [congruence|].
        apply HF. lia. }
      split.
      { intros Hlt. replace (a + Z.of_nat (S k)) with (a + 1 + Z.of_nat k) by lia.
        apply HLt. lia. }
      intros HSk _. assert (Hkr : k = r) by lia.
      destruct r as [|r'].
      * subst k. cbn [pingLoop snd].
        replace (a + Z.of_nat 1 - 1) with a by lia. symmetry. exact HP.
      * rewrite (HEq Hkr) by lia. f_equal. lia.
    + exists 0%nat. cbn [fst snd]. split; [lia|]. split; [lia|].
      split; [lia|]. split; [intros j Hj; lia|]. split.
      * intros _. rewrite Z.add_0_r. auto.
      * intros H0. discriminate.
Qed.

(** X20: The wait pings at most 20 times: it never sleeps more than 210
    seconds in all and never logs more than 21 records. *)
Theorem waitForDatabase_is_bounded (logger : Logger) :
  0 <= snd (fst (waitForDatabase Ping logger)) <= 210 /\
  (length logger <= length (fst (fst (waitForDatabase Ping logger)))
   <= length logger + 21)%nat.
Proof.
  unfold waitForDatabase, maxAttempts.
  destruct (pingLoop_runs 20 1 None logger 0) as (k & Hk & HL & HS & _).
  destruct (pingLoop Ping 20 1 None (logger, 0)) as [[l s] [e|]];
    cbn [fst snd] in *; unfold Log; try rewrite length_app; cbn [length];
    split; try lia; nia.
Qed.

(** X21: The wait ends the run exactly when the 20 pings all fail; it does so
    with status 1, after 210 seconds of sleep and 21 records, the last of
    which carries the error of the twentieth ping. *)
Theorem waitForDatabase_gives_up_after_20_failures (logger : Logger) :
  ((exists code, snd (waitForDatabase Ping logger) = Exited code) <->
   (forall j, 1 <= j <= 20 -> Ping j <> None)) /\
  (forall code, snd (waitForDatabase Ping logger) = Exited code ->
     code = 1 /\
     snd (fst (waitForDatabase Ping logger)) = 210 /\
     length (fst (fst (waitForDatabase Ping logger))) = (length logger + 21)%nat /\
     exists e, Ping 20 = Some e /\
       last (fst (fst (waitForDatabase Ping logger))) [] = ["err"; e]).
Proof.
  unfold waitForDatabase, maxAttempts.
  destruct (pingLoop_runs 20 1 None logger 0)
    as (k & Hk & HL & HS & HF & HLt & HEq).
  destruct (pingLoop Ping 20 1 None (logger, 0)) as [[l s] [e|]] eqn:HR;
    cbn [fst snd] in *.
  - assert (Hk20 : k = 20%nat).
    { destruct (Nat.eq_dec k 20) as [H|H]; [exact H|].
      destruct HLt as [_ HN]; [lia|discriminate]. }
    subst k. split.
    + split; [|eexists; reflexivity].
      intros _ j Hj. apply HF. lia.
    + intros code Hc. inversion Hc; subst.
      split; [reflexivity|]. split; [lia|]. split.
      { unfold Log. rewrite length_app, HL. cbn. lia. }
      exists e. split.
      { rewrite HEq by lia. reflexivity. }
      unfold Log. apply last_last.
  - split.
    + split; [intros [code Hc]; discriminate|].
      intros Hall. exfalso.
      destruct (Nat.eq_dec k 20) as [H|H].
      * subst k. specialize (HEq eq_refl ltac:(lia)).
        apply (Hall 20); [lia|]. symmetry. exact HEq.
      * destruct HLt as [HN _]; [lia|].
        apply (Hall (1 + Z.of_nat k)); [lia|exact HN].
    + intros code Hc. discriminate.
Qed.

(** X22: When ping number [k] is the first to succeed, the wait goes on with
    the start-up after [k - 1] log records and [k (k - 1) / 2] seconds of
    sleep. *)
Theorem waitForDatabase_resumes_at_first_success (logger : Logger) (k : Z) :
  1 <= k <= 20 ->
  (forall j, 1 <= j < k -> Ping j <> None) ->
  Ping k = None ->
  snd (waitForDatabase Ping logger) = Returned tt /\
  2 * snd (fst (waitForDatabase Ping logger)) = k * (k - 1) /\
  Z.of_nat (length (fst (fst (waitForDatabase Ping logger))))
    = Z.of_nat (length logger) + k - 1.
Proof.
  intros Hk Hfail Hok.
  unfold waitForDatabase, maxAttempts.
  destruct (pingLoop_runs 20 1 None logger 0)
    as (n & Hn & HL & HS & HF & HLt & HEq).
  assert (Hnk : Z.of_nat n = k - 1).
  { destruct (Z.lt_trichotomy (Z.of_nat n) (k - 1)) as [H|[H|H]]; [|exact H|].
    - exfalso. destruct HLt as [HN _]; [lia|].
      apply (Hfail (1 + Z.of_nat n)); [lia|exact HN].
    - exfalso. apply (HF k); [lia|exact Hok]. }
  destruct HLt as [_ HNone]; [lia|].
  destruct (pingLoop Ping 20 1 None (logger, 0)) as [[l s] e];
    cbn [fst snd] in *.
  subst e. cbn [fst snd]. split; [reflexivity|]. split; [nia|lia].
Qed.

End WaitForDatabase.

(** * The further properties at work *)

Section MoreFleet.

Import fleet main.

(** The phone acknowledges a ProfileList command. *)
Lemma Acknowledge_other_types_reconcile_nothing_witness :
  devices (fst (Acknowledge json_Marshal now
                  (world_with (queued p_profiles) [phone]) (ack "c-prof")))
    = [phone] /\
  apps (fst (Acknowledge json_Marshal now
               (world_with (queued p_profiles) [phone]) (ack "c-prof")))
    = inventory0 /\
  certs (fst (Acknowledge json_Marshal now
                (world_with (queued p_profiles) [phone]) (ack "c-prof")))
    = [].
Proof.
  apply (Acknowledge_other_types_reconcile_nothing json_Marshal now
           (world_with (queued p_profiles) [phone]) (ack "c-prof")
           p_profiles None); reflexivity.
Defined.

(** An application list arrives from a device the registry does not
    have. *)
Lemma inventory_response_needs_the_device_witness :
  Acknowledge json_Marshal now (world_with (queued p_apps) []) (ack_apps [safari])
    = (world_with (queued p_apps) [],
       (0, Some "getting a device record by udid: device not found")).
Proof.
  apply (inventory_response_needs_the_device json_Marshal now
           (world_with (queued p_apps) []) (ack_apps [safari])
           p_apps None device.zero_Device "device not found");
    [reflexivity | left; reflexivity | reflexivity].
Defined.

(** The phone, awaiting configuration, acknowledges the first of two
    queued commands. *)
Lemma Acknowledge_with_commands_remaining_witness :
  let two := commandstore.mkDB
               [commandstore.mkEntry "UDID-1" p_profiles;
                commandstore.mkEntry "UDID-1" p_certs]
               [p_info; p_apps; p_certs; p_profiles] 4 in
  let one := commandstore.mkDB
               [commandstore.mkEntry "UDID-1" p_certs]
               [p_info; p_apps; p_certs; p_profiles] 4 in
  Acknowledge json_Marshal now (world_with two [phone]) (ack "c-prof")
    = (set_commands (world_with two [phone]) one, (1, None)).
Proof.
  intros two one.
  apply (Acknowledge_with_commands_remaining json_Marshal now
           (world_with two [phone]) (ack "c-prof") p_profiles None
           (world_with two [phone]) one 1);
    [reflexivity | reflexivity | reflexivity | lia].
Defined.

(** The configured phone acknowledges its last command. *)
Lemma Acknowledge_zero_means_configured_witness :
  exists d,
    device.GetDeviceByUDID [phone_configured] "UDID-1" ["awaiting_configuration"]
      = (d, None) /\
    device.AwaitingConfiguration d = false.
Proof.
  exact (Acknowledge_zero_means_configured json_Marshal now
           (world_with (queued p_profiles) [phone_configured]) (ack "c-prof")
           _ eq_refl).
Defined.

(** The registry has lost the phone when it acknowledges its last
    command: the failure comes with the count 0. *)
Lemma Acknowledge_error_counts_witness :
  0 = 0 \/
  exists svc1 c,
    dispatch json_Marshal now "ProfileList"
             (world_with (queued p_profiles) []) (ack "c-prof") = (svc1, None) /\
    command.DeleteCommand (commands svc1) "UDID-1" "c-prof"
      = (c, (0, Some "check and requeue: device not found")) /\
    fst (Acknowledge json_Marshal now (world_with (queued p_profiles) [])
                     (ack "c-prof"))
      = set_commands svc1 c.
Proof.
  exact (Acknowledge_error_counts json_Marshal now
           (world_with (queued p_profiles) []) (ack "c-prof") p_profiles None
           _ 0 "check and requeue: device not found" eq_refl eq_refl).
Defined.

Lemma Acknowledge_agrees_with_FailCommand_witness :
  let two := commandstore.mkDB
               [commandstore.mkEntry "UDID-1" p_profiles;
                commandstore.mkEntry "UDID-1" p_certs]
               [p_info; p_apps; p_certs; p_profiles] 4 in
  Acknowledge json_Marshal now (world_with two [phone]) (ack "c-prof")
    = FailCommand (world_with two [phone]) (ack "c-prof").
Proof.
  intros two.
  apply (Acknowledge_agrees_with_FailCommand json_Marshal now
           (world_with two [phone]) (ack "c-prof") p_profiles None
           (commandstore.mkDB [commandstore.mkEntry "UDID-1" p_certs]
                              [p_info; p_apps; p_certs; p_profiles] 4)
           1 None);
    [reflexivity | reflexivity | reflexivity | right; lia].
Defined.

(** The phone answers a DeviceInformation command. *)
Lemma ackQueryResponses_saves_once_witness :
  let svc := world_with (queued p_info) [phone] in
  let svc' := fst (ackQueryResponses json_Marshal now svc ack_info) in
  svc' = svc \/
  exists existing blob saved d,
    device.Devices (devices svc) [device.SerialNumber "SN-1"; device.ByUDID "UDID-1"]
      = ([existing], None) /\
    json_Marshal answers = (blob, None) /\
    device.Save (devices svc) "queryResponses" saved = (d, None) /\
    svc' = set_devices svc d /\
    device.UUID saved = device.UUID existing /\
    device.UDID saved = device.UDID existing /\
    device.AwaitingConfiguration saved = device.AwaitingConfiguration existing /\
    device.SerialNumber_ saved = sql.mkNullString "SN-1" true /\
    device.LastCheckin saved = now /\
    device.LastQueryResponse saved = blob.
Proof.
  intros svc svc'.
  exact (ackQueryResponses_saves_once json_Marshal now svc ack_info svc' None
           eq_refl).
Defined.

(** The phone reports Safari and Notes in place of Mail. *)
Lemma Acknowledge_replaces_the_application_snapshot_witness :
  let r := Acknowledge json_Marshal now (world_with (queued p_apps) [phone])
                       (ack_apps [safari; notes]) in
  appstore.inventory (apps (fst r)) "uuid-1"
    = [newApp "uuid-1" safari; newApp "uuid-1" notes] /\
  appstore.others (apps (fst r)) "uuid-1" = [maps_elsewhere].
Proof.
  intros r.
  apply (Acknowledge_replaces_the_application_snapshot json_Marshal now
           (world_with (queued p_apps) [phone]) (ack_apps [safari; notes])
           p_apps None phone); try reflexivity.
  intros it [<-|[<-|[]]]; reflexivity.
Defined.

Lemma Acknowledge_DeviceInformation_is_read_back_witness :
  device.GetDeviceByUDID
    (devices (fst (Acknowledge json_Marshal now
                     (world_with (queued p_info) [phone]) ack_info)))
    "UDID-1" ["awaiting_configuration"]
  = (device.mkDevice "uuid-1" "UDID-1" (sql.mkNullString "SN-1" true)
                     "iPhone" "14B" "Ada's phone" "" "" "A1549" "10.1"
                     now [] true,
     None).
Proof.
  exact (Acknowledge_DeviceInformation_is_read_back json_Marshal now
           (world_with (queued p_info) [phone]) ack_info p_info None phone []
           ["awaiting_configuration"] eq_refl eq_refl eq_refl eq_refl eq_refl).
Defined.

(** A client that is just the consumer key it was built from. *)
Lemma depClient_returns_a_checked_client_witness :
  @nil (list string) = [] /\
  exists config,
    (fun (c : Config) (_ : option string) => (ConsumerKey c, @None error))
      config (Some "https://dep.example")
      = ("ck", None) /\
    (config = mkConfig "ck" "cs" "at" "as" /\
     "ck" <> "" /\ "cs" <> "" /\ "at" <> "" /\ "as" <> "").
Proof.
  exact (depClient_returns_a_checked_client string
           (fun c _ => (ConsumerKey c, None))
           [] "ck" "cs" "at" "as" "https://dep.example" false [] "ck" eq_refl).
Defined.

(** The access secret is missing. *)
Lemma depClient_refuses_incomplete_credentials_witness :
  depClient string (fun c _ => (ConsumerKey c, None))
            [] "ck" "cs" "at" "" "" false
    = ([["err"; "must specify DEP server credentials"];
        ["ConsumerKey"; "ck"; "ConsumerSecret"; "cs";
         "AccessToken"; "at"; "AccessSecret"; ""]],
       Exited 1).
Proof.
  apply (depClient_refuses_incomplete_credentials string
           (fun c _ => (ConsumerKey c, None)) [] "ck" "cs" "at" "" "").
  cbn. auto.
Defined.

(** The simulator cannot be reached. *)
Lemma depClient_never_exits_silently_witness :
  1 = 1 /\ (length (@nil (list string)) < length [["err"; "no route to host"]])%nat.
Proof.
  exact (depClient_never_exits_silently string
           (fun c _ => (ConsumerKey c, Some "no route to host"))
           [] "" "" "" "" "" true [["err"; "no route to host"]] 1 eq_refl).
Defined.

(** The database answers the third ping. *)
Lemma waitForDatabase_resumes_at_first_success_witness :
  let Ping := fun k => if k <? 3 then Some "connection refused" else None in
  snd (waitForDatabase Ping []) = Returned tt /\
  2 * snd (fst (waitForDatabase Ping [])) = 3 * (3 - 1) /\
  Z.of_nat (length (fst (fst (waitForDatabase Ping [])))) = Z.of_nat 0 + 3 - 1.
Proof.
  intros Ping.
  apply (waitForDatabase_resumes_at_first_success Ping [] 3).
  - lia.
  - intros j Hj. unfold Ping. destruct (Z.ltb_spec j 3); [discriminate|lia].
  - reflexivity.
Defined.

End MoreFleet.
